(** * tweet-composer: the agent graph of [js/src/agent/index.ts]

    A shallow embedding of the agent module: its prompt construction
    (JavaScript [String.prototype.replace] with a string pattern), its four
    nodes, its two routers and the topology assembled by [buildGraph],
    together with the graph engine the module runs on (state schema and
    merge, shared value store, executor). *)

From Stdlib Require Import Ascii String DecimalString.
From stdpp Require Import base option list gmap strings fin_maps.

(** ** JavaScript strings *)

Module JsString.

(** The double quote character, for prompt text that quotes words. *)
Definition dq : string := String (ascii_of_nat 34) EmptyString.

(** [s.startsWith(pat)]. *)
Fixpoint startsWith (pat s : string) : bool :=
  match pat, s with
  | EmptyString, _ => true
  | String a p, String b t => if Ascii.eqb a b then startsWith p t else false
  | String _ _, EmptyString => false
  end.

(** [s.indexOf(pat)], [None] for -1. *)
Fixpoint indexOf (pat s : string) : option nat :=
  if startsWith pat s then Some 0
  else match s with
       | EmptyString => None
       | String _ t => S <$> indexOf pat t
       end.

(** [s.includes(pat)]. *)
Fixpoint includes (pat s : string) : bool :=
  startsWith pat s ||
  match s with
  | EmptyString => false
  | String _ t => includes pat t
  end.

(** [s.substring(0, n)] and [s.substring(n)]. *)
Fixpoint take (n : nat) (s : string) : string :=
  match n, s with
  | S k, String c t => String c (take k t)
  | _, _ => EmptyString
  end.

Fixpoint drop (n : nat) (s : string) : string :=
  match n, s with
  | S k, String _ t => drop k t
  | _, _ => s
  end.

(** ECMAScript [GetSubstitution] for a string pattern: there are no
    captures, so only [$$], [$&], [$`] and [$'] are special in the
    replacement text; [$1], [$<] and a lone [$] stay as they are. *)
Fixpoint getSubstitution (matched str : string) (position : nat)
    (template : string) : string :=
  match template with
  | EmptyString => EmptyString
  | String c rest =>
      if Ascii.eqb c "$" then
        match rest with
        | String d rest' =>
            if Ascii.eqb d "$" then
              String "$" (getSubstitution matched str position rest')
            else if Ascii.eqb d "&" then
              matched +:+ getSubstitution matched str position rest'
            else if Ascii.eqb d "`" then
              take position str +:+ getSubstitution matched str position rest'
            else if Ascii.eqb d "'" then
              drop (position + String.length matched) str
                +:+ getSubstitution matched str position rest'
            else String c (getSubstitution matched str position rest)
        | EmptyString => String c EmptyString
        end
      else String c (getSubstitution matched str position rest)
  end.

(** [s.replace(pat, replacement)] with a string pattern: the first
    occurrence only. *)
Definition replace (s pat replacement : string) : string :=
  match indexOf pat s with
  | None => s
  | Some pos =>
      take pos s
        +:+ getSubstitution pat s pos replacement
        +:+ drop (pos + String.length pat) s
  end.

(** [xs.join(sep)]. *)
Definition join (sep : string) (xs : list string) : string :=
  String.concat sep xs.

(** Template interpolation of a number. *)
Definition ofNat (n : nat) : string :=
  NilEmpty.string_of_uint (Nat.to_uint n).

(** Truthiness of a string: the empty string is falsy. *)
Definition truthy (s : string) : bool :=
  match s with EmptyString => false | String _ _ => true end.

End JsString.

(** ** Values, state and configuration *)

(** [BaseMessage]: [_getType()] and [content], which is either a string or a
    list of content blocks. *)
Inductive MessageContent :=
  | ContentText (text : string)
  | ContentBlocks (blocks : list string).

Record BaseMessage := {
  _getType : string;
  content : MessageContent;
}.

(** [UserRules] (from the [useGraph] hook): two optional lists of rules. *)
Record UserRules := {
  styleRules : option (list string);
  contentRules : option (list string);
}.

(** The JavaScript values that the state and the updates of this graph hold. *)
#[warnings="-register-all"]
Inductive value :=
  | VUndefined
  | VBool (b : bool)
  | VString (s : string)
  | VMessage (m : BaseMessage)
  | VRules (r : UserRules)
  | VArray (items : list value).

(** A state, and a partial update, is a mapping from field name to value;
    the store maps a partition key to the value shared under it. *)
Abbreviation State := (gmap string value).
Abbreviation Update := (gmap string value).
Abbreviation Store := (gmap string value).

(** [GraphConfig]: the [configurable] mapping, each option possibly absent.
    [assistant_id] is the field the shared value is keyed on. *)
Record Configurable := {
  systemRules : option string;
  hasAcceptedText : option bool;
  onlyGetRules : option bool;
  assistant_id : option string;
}.

Record RunnableConfig := {
  configurable : option Configurable;
}.

Module Js.

(** Truthiness of a property read: an absent property is [undefined]. *)
Definition truthy (v : option value) : bool :=
  match v with
  | None | Some VUndefined => false
  | Some (VBool b) => b
  | Some (VString s) => JsString.truthy s
  | Some (VMessage _) | Some (VRules _) | Some (VArray _) => true
  end.

(** [v.styleRules] and [v.contentRules]: [undefined] on a value that has no
    such property. *)
Definition get_styleRules (v : option value) : option (list string) :=
  match v with Some (VRules r) => styleRules r | _ => None end.

Definition get_contentRules (v : option value) : option (list string) :=
  match v with Some (VRules r) => contentRules r | _ => None end.

(** [xs?.length] as a condition: true for a non-empty array. *)
Definition has_length (xs : option (list string)) : bool :=
  match xs with Some (_ :: _) => true | _ => false end.

(** The items of a sequence-valued field: an absent field is the empty
    sequence, an array is its items, a scalar is a single item. *)
Definition items (v : option value) : list value :=
  match v with
  | None => []
  | Some (VArray l) => l
  | Some v => [v]
  end.

(** [a || b] on an optional string: [b] when [a] is undefined or empty. *)
Definition or_else (a : option string) (b : string) : string :=
  match a with
  | Some s => if JsString.truthy s then s else b
  | None => b
  end.

Definition truthy_str (a : option string) : bool :=
  match a with Some s => JsString.truthy s | None => false end.

End Js.

(** ** Errors and results *)

Inductive Error :=
  | UnknownFieldError (fields : list string)
  | InvalidRouteError (target : string)
  | TopologyError
  | SchemaValidationError
  | CollaboratorFailure
  | MissingPartitionKey
  | TypeError.

Inductive result (A : Type) :=
  | Ok (a : A)
  | Err (e : Error).
Arguments Ok {A} a.
Arguments Err {A} e.

#[global] Instance result_ret : MRet result := λ A a, Ok a.
#[global] Instance result_bind : MBind result := λ A B f m,
  match m with Ok a => f a | Err e => Err e end.

Fixpoint mapR {A B} (f : A → result B) (l : list A) : result (list B) :=
  match l with
  | [] => Ok []
  | x :: l' => y ← f x; ys ← mapR f l'; Ok (y :: ys)
  end.

(** ** State schema, shared value store and merge *)

(** Modelled from the spec: the per-field merge policy of the missing merge
    engine (section 3). A shared field names the configuration field its
    partition key is read from. *)
Inductive Policy :=
  | Replace
  | Append
  | Shared (on : Configurable → option string).

(** A schema lists the declared fields with their policy, in declaration
    order. *)
Abbreviation Schema := (list (string * Policy)).

(** Modelled from the spec: [Annotation<T>()] of the missing graph library,
    a field with the replace policy (section 3). *)
Definition Annotation : Policy := Replace.

(** Modelled from the spec: [SharedValue.on(field)] of the missing graph
    library, a field with the shared policy keyed on [field] (section 3). *)
Definition SharedValue_on (on : Configurable → option string) : Policy :=
  Shared on.

(** Modelled from the spec: the reducer of [MessagesAnnotation.spec] is
    library code; section 3 gives the conversational message history the
    append policy. *)
Definition MessagesAnnotation_spec : Schema := [("messages"%string, Append)].

Definition GraphAnnotation : Schema :=
  MessagesAnnotation_spec ++
  [ ("userRules"%string, SharedValue_on assistant_id);
    ("contentGenerated"%string, Annotation);
    ("rules"%string, Annotation) ].

Module Engine.

(** The merge engine, the store client and the executor are the graph
    library's, not this module's. Sections 3 to 7 of the specification are
    followed for them. *)

(** Modelled from the spec: the declared fields of a schema (the merge
    engine is missing). *)
Definition declared (schema : Schema) : list string := schema.*1.

Definition is_declared (schema : Schema) (field : string) : bool :=
  bool_decide (field ∈ declared schema).

(** Modelled from the spec: the fields of an update that the schema does not
    declare (the merge engine is missing; section 4.1). *)
Definition undeclared (schema : Schema) (upd : Update) : list string :=
  filter (λ f, is_declared schema f = false) (elements (dom upd)).

(** Modelled from the spec: the partition key of a run, read from the
    designated field of [configurable] (the store client is missing;
    section 3). A configuration without that field has no key. *)
Definition partitionKey (on : Configurable → option string)
    (config : option RunnableConfig) : option string :=
  c ← config; o ← configurable c; on o.

(** Modelled from the spec: [get(partitionKey) -> value | default] of the
    missing store client (section 6); the default is an absent value. *)
Definition get (store : Store) (key : option string) : option value :=
  k ← key; store !! k.

(** Modelled from the spec: [put(partitionKey, value)] of the missing store
    client (section 6). Without a partition key the write is refused. *)
Definition put (store : Store) (key : option string) (v : value)
    : result Store :=
  match key with
  | Some k => Ok (<[k := v]> store)
  | None => Err MissingPartitionKey
  end.

(** Modelled from the spec: one declared field of a merge (the merge engine
    is missing; section 4.1). Absent from the update, the field is carried
    over; present, its policy is applied: replace overwrites, append
    concatenates the items of a sequence or the single scalar, shared
    forwards the value to the store. *)
Definition merge_field (config : option RunnableConfig) (upd : Update)
    (acc : result (State * Store)) (entry : string * Policy)
    : result (State * Store) :=
  '(st, store) ← acc;
  match upd !! entry.1 with
  | None => Ok (st, store)
  | Some v =>
      match entry.2 with
      | Replace => Ok (<[entry.1 := v]> st, store)
      | Append =>
          Ok (<[entry.1 := VArray (Js.items (st !! entry.1) ++ Js.items (Some v))]> st,
              store)
      | Shared on =>
          store' ← put store (partitionKey on config) v;
          Ok (st, store')
      end
  end.

(** Modelled from the spec: [merge(currentState, partialUpdate) -> newState]
    of the missing merge engine (sections 4.1 and 7). An update touching an
    undeclared field is rejected whole; otherwise the lookup table is
    consulted field by field. *)
Definition merge (schema : Schema) (config : option RunnableConfig)
    (st : State) (store : Store) (upd : Update) : result (State * Store) :=
  match undeclared schema upd with
  | [] => foldl (merge_field config upd) (Ok (st, store)) schema
  | fields => Err (UnknownFieldError fields)
  end.

(** Modelled from the spec: a sequence of partial updates merged in arrival
    order (the merge engine is missing; section 5, ordering guarantees). *)
Definition merge_all (schema : Schema) (config : option RunnableConfig)
    (st : State) (store : Store) (upds : list Update) : result (State * Store) :=
  foldl (λ acc upd, '(st, store) ← acc; merge schema config st store upd)
    (Ok (st, store)) upds.

(** Modelled from the spec: the read of one field (the merge engine is
    missing; section 3). A shared field is resolved through the store, never
    through the transient state. *)
Definition resolve_field (config : option RunnableConfig) (store : Store)
    (acc : State) (entry : string * Policy) : State :=
  match entry.2 with
  | Shared on =>
      match get store (partitionKey on config) with
      | Some v => <[entry.1 := v]> acc
      | None => delete entry.1 acc
      end
  | Replace | Append => acc
  end.

(** Modelled from the spec: the state as nodes, routers and the caller read
    it (the merge engine is missing; sections 3 and 4.4). *)
Definition view (schema : Schema) (config : option RunnableConfig)
    (st : State) (store : Store) : State :=
  foldl (resolve_field config store) st schema.

End Engine.

(** ** Model collaborators *)

(** One message of a model input: a [{role, content}] literal, or a value
    spread from [state.messages]. *)
Inductive ChatInput :=
  | RoleContent (role text : string)
  | History (v : value).

(** A call on a model collaborator: the [ChatAnthropic] options, the name
    given to [withStructuredOutput] if any, and the input messages. *)
Record ModelCall := {
  model : string;
  temperature : nat;
  structuredOutput : option string;
  input : list ChatInput;
}.

(** The result of [userRulesSchema]: both arrays are present. *)
Record UserRulesResult := {
  res_contentRules : list string;
  res_styleRules : list string;
}.

(** The model inference collaborator. Each answer is external: a chat
    message, or a structured result already validated against the zod schema
    of the call, or a failure. *)
Record Collaborators := {
  chat : ModelCall → result BaseMessage;
  structuredUserRules : ModelCall → result UserRulesResult;
  structuredContentGenerated : ModelCall → result bool;
}.

(** A node computation: the model calls it made, in order, and its partial
    update or the error it threw. *)
Record Comp (A : Type) := {
  calls : list ModelCall;
  outcome : result A;
}.
Arguments calls {A} c.
Arguments outcome {A} c.

#[global] Instance Comp_ret : MRet Comp := λ A a,
  {| calls := []; outcome := Ok a |}.
#[global] Instance Comp_bind : MBind Comp := λ A B f m,
  match outcome m with
  | Ok a => {| calls := calls m ++ calls (f a); outcome := outcome (f a) |}
  | Err e => {| calls := calls m; outcome := Err e |}
  end.

Definition liftR {A} (r : result A) : Comp A := {| calls := []; outcome := r |}.

(** [await model.invoke(input)]: the call is recorded, the answer is the
    collaborator's. *)
Definition await {A} (answer : ModelCall → result A) (call : ModelCall) : Comp A :=
  {| calls := [call]; outcome := answer call |}.

(** ** Graph definition and executor *)

(** The graph builder, compilation and the executor are the graph library's.
    Sections 3 and 4.2 to 4.4 of the specification are followed for them. *)

(** Modelled from the spec: where an edge leads, a node or the terminal
    marker (the graph library is missing; section 3). *)
Inductive Target :=
  | END
  | To (node : string).

(** Modelled from the spec: where an edge leaves from, the start sentinel or
    a node (the graph library is missing; section 4.4). *)
Inductive Source :=
  | START
  | From (node : string).

Abbreviation Router := (State → option RunnableConfig → Target).
Abbreviation NodeFn := (State → option RunnableConfig → Comp Update).

(** Modelled from the spec: an edge is unconditional or computed by a router
    (the graph library is missing; section 3). *)
Inductive Edge :=
  | Direct (target : Target)
  | Conditional (router : Router).

(** Modelled from the spec: the graph definition, its schema, registered
    nodes, entry edge and outgoing edges (the graph library is missing;
    section 2). *)
Record StateGraph := {
  schema : Schema;
  nodes : gmap string NodeFn;
  entry : option Edge;
  edges : gmap string Edge;
}.

(** Modelled from the spec: [new StateGraph(annotation)] of the missing graph
    library, a graph with no node and no edge. *)
Definition newStateGraph (schema : Schema) : StateGraph :=
  {| schema := schema; nodes := ∅; entry := None; edges := ∅ |}.

(** Modelled from the spec: [addNode(name, fn)] of the missing graph library
    registers a node under its name. *)
Definition addNode (name : string) (fn : NodeFn) (g : StateGraph) : StateGraph :=
  {| schema := schema g; nodes := <[name := fn]> (nodes g);
     entry := entry g; edges := edges g |}.

(** Modelled from the spec: the edge out of a source is recorded, the one
    out of START as the entry edge (the graph library is missing). *)
Definition setEdge (src : Source) (e : Edge) (g : StateGraph) : StateGraph :=
  match src with
  | START =>
      {| schema := schema g; nodes := nodes g; entry := Some e; edges := edges g |}
  | From n =>
      {| schema := schema g; nodes := nodes g; entry := entry g;
         edges := <[n := e]> (edges g) |}
  end.

(** Modelled from the spec: [addEdge(source, target)] of the missing graph
    library, an unconditional edge. *)
Definition addEdge (src : Source) (target : Target) : StateGraph → StateGraph :=
  setEdge src (Direct target).

(** Modelled from the spec: [addConditionalEdges(source, router)] of the
    missing graph library, a conditional edge. *)
Definition addConditionalEdges (src : Source) (router : Router)
    : StateGraph → StateGraph :=
  setEdge src (Conditional router).

(** Modelled from the spec: the state of a run of the missing executor, that
    is the transient state, the store, the model calls made so far and the
    nodes executed so far. *)
Record Run := {
  state : State;
  store : Store;
  called : list ModelCall;
  trace : list string;
}.

(** Modelled from the spec: how a run of the missing executor ends, at END
    with the final state or aborted by an error (section 7); a run that is
    cut short by its fuel has not ended. *)
Inductive Outcome :=
  | Finished (final : State) (r : Run)
  | Aborted (e : Error) (r : Run)
  | OutOfFuel (r : Run).

(** Modelled from the spec: a run has terminated when it reached END or was
    aborted by an error (the executor is missing; sections 4.4 and 7). *)
Definition terminated (o : Outcome) : bool :=
  match o with
  | Finished _ _ | Aborted _ _ => true
  | OutOfFuel _ => false
  end.

(** Modelled from the spec: the run state an outcome carries (the executor is
    missing). *)
Definition run_of (o : Outcome) : Run :=
  match o with
  | Finished _ r | Aborted _ r | OutOfFuel r => r
  end.

Module Executor.

(** Modelled from the spec: an edge target is END or a registered node
    (compilation is missing; section 4.3). *)
Definition registered (g : StateGraph) (t : Target) : bool :=
  match t with
  | END => true
  | To n => bool_decide (is_Some (nodes g !! n))
  end.

(** Modelled from the spec: the check of one edge (compilation is missing;
    section 4.3). No candidate set is declared for a router, so its targets
    are checked when it returns. *)
Definition edge_ok (g : StateGraph) (e : Edge) : bool :=
  match e with
  | Direct t => registered g t
  | Conditional _ => true
  end.

(** Modelled from the spec: the topology checks of the missing [compile]
    (section 4.3). An entry edge exists, every edge leaves a registered node
    and points to a registered node or to END, and no registered node is a
    dead end. *)
Definition well_formed (g : StateGraph) : bool :=
  match entry g with
  | Some e => edge_ok g e
  | None => false
  end
  && forallb (λ ne, bool_decide (is_Some (nodes g !! ne.1)) && edge_ok g ne.2)
       (map_to_list (edges g))
  && forallb (λ n, bool_decide (is_Some (edges g !! n)))
       (elements (dom (nodes g))).

(** Modelled from the spec: [compile() -> ExecutableGraph] of the missing
    graph library, failing with [TopologyError] (section 4.3). *)
Definition compile (g : StateGraph) : result StateGraph :=
  if well_formed g then Ok g else Err TopologyError.

(** Modelled from the spec: the state a node or router of the run reads (the
    executor is missing; section 4.4). *)
Definition visible (g : StateGraph) (config : option RunnableConfig)
    (r : Run) : State :=
  Engine.view (schema g) config (state r) (store r).

(** Modelled from the spec: step 2 of the transition function of the missing
    executor (sections 4.4 and 7). The node runs on the current state, then
    its partial update is merged; a failing node or a rejected update aborts
    the run with nothing of the update applied, and a target that is not a
    registered node is an [InvalidRouteError]. *)
Definition exec_node (g : StateGraph) (config : option RunnableConfig)
    (name : string) (r : Run) : (Error * Run) + Run :=
  match nodes g !! name with
  | None => inl (InvalidRouteError name, r)
  | Some fn =>
      let c := fn (visible g config r) config in
      let r1 := {| state := state r; store := store r;
                   called := called r ++ calls c;
                   trace := trace r ++ [name] |} in
      match outcome c with
      | Err e => inl (e, r1)
      | Ok upd =>
          match Engine.merge (schema g) config (state r) (store r) upd with
          | Err e => inl (e, r1)
          | Ok (st', store') =>
              inr {| state := st'; store := store';
                     called := called r1; trace := trace r1 |}
          end
      end
  end.

(** Modelled from the spec: the target of an edge on a given run state (the
    executor is missing; section 4.2). *)
Definition follow (g : StateGraph) (config : option RunnableConfig)
    (e : Edge) (r : Run) : Target :=
  match e with
  | Direct t => t
  | Conditional router => router (visible g config r) config
  end.

(** Modelled from the spec: step 3 of the transition function of the missing
    executor, the transition out of a node on the state it is given. *)
Definition next (g : StateGraph) (config : option RunnableConfig)
    (name : string) (r : Run) : result Target :=
  match edges g !! name with
  | Some e => Ok (follow g config e r)
  | None => Err TopologyError
  end.

(** Modelled from the spec: the transition function of the missing executor
    iterated until END (section 4.4); the router of a conditional edge is
    given the state after the merge. Each node execution uses one unit of
    fuel. *)
Fixpoint drive (fuel : nat) (g : StateGraph) (config : option RunnableConfig)
    (t : Target) (r : Run) : Outcome :=
  match t with
  | END => Finished (visible g config r) r
  | To name =>
      match fuel with
      | 0 => OutOfFuel r
      | S fuel' =>
          match exec_node g config name r with
          | inl (e, r') => Aborted e r'
          | inr r' =>
              match next g config name r' with
              | Err e => Aborted e r'
              | Ok t' => drive fuel' g config t' r'
              end
          end
      end
  end.

(** Modelled from the spec: the run state at START (the executor is missing;
    section 4.4). *)
Definition initial (st0 : State) (store0 : Store) : Run :=
  {| state := st0; store := store0; called := []; trace := [] |}.

(** Modelled from the spec: [run(initialState, config) -> finalState] of the
    missing executor, against a store (sections 4.4 and 6). *)
Definition run (fuel : nat) (g : StateGraph) (st0 : State) (store0 : Store)
    (config : option RunnableConfig) : Outcome :=
  match entry g with
  | None => Aborted TopologyError (initial st0 store0)
  | Some e =>
      drive fuel g config (follow g config e (initial st0 store0))
        (initial st0 store0)
  end.

(** Modelled from the spec: a run of what [compile] returned (the executor
    is missing); a graph that failed to compile runs nothing. *)
Definition invoke (fuel : nat) (compiled : result StateGraph) (st0 : State)
    (store0 : Store) (config : option RunnableConfig) : Outcome :=
  match compiled with
  | Ok g => run fuel g st0 store0 config
  | Err e => Aborted e (initial st0 store0)
  end.

End Executor.

(** ** The executor over a merge *)

Abbreviation MergeFn :=
  (Schema → option RunnableConfig → State → Store → Update
   → result (State * Store)).

Module ExecutorBy.

(** Modelled from the spec: step 2 of the transition function of the missing
    executor (sections 4.4 and 7), as [Executor.exec_node] has it, with the
    merge it applies left open. *)
Definition exec_node (merge : MergeFn) (g : StateGraph)
    (config : option RunnableConfig) (name : string) (r : Run)
    : (Error * Run) + Run :=
  match nodes g !! name with
  | None => inl (InvalidRouteError name, r)
  | Some fn =>
      let c := fn (Executor.visible g config r) config in
      let r1 := {| state := state r; store := store r;
                   called := called r ++ calls c;
                   trace := trace r ++ [name] |} in
      match outcome c with
      | Err e => inl (e, r1)
      | Ok upd =>
          match merge (schema g) config (state r) (store r) upd with
          | Err e => inl (e, r1)
          | Ok (st', store') =>
              inr {| state := st'; store := store';
                     called := called r1; trace := trace r1 |}
          end
      end
  end.

(** Modelled from the spec: the transition function of the missing executor
    iterated until END (section 4.4), as [Executor.drive] has it, over the
    merge given. *)
Fixpoint drive (merge : MergeFn) (fuel : nat) (g : StateGraph)
    (config : option RunnableConfig) (t : Target) (r : Run) : Outcome :=
  match t with
  | END => Finished (Executor.visible g config r) r
  | To name =>
      match fuel with
      | 0 => OutOfFuel r
      | S fuel' =>
          match exec_node merge g config name r with
          | inl (e, r') => Aborted e r'
          | inr r' =>
              match Executor.next g config name r' with
              | Err e => Aborted e r'
              | Ok t' => drive merge fuel' g config t' r'
              end
          end
      end
  end.

(** Modelled from the spec: [run(initialState, config) -> finalState] of the
    missing executor (sections 4.4 and 6), as [Executor.run] has it, over
    the merge given. *)
Definition run (merge : MergeFn) (fuel : nat) (g : StateGraph) (st0 : State)
    (store0 : Store) (config : option RunnableConfig) : Outcome :=
  match entry g with
  | None => Aborted TopologyError (Executor.initial st0 store0)
  | Some e =>
      drive merge fuel g config
        (Executor.follow g config e (Executor.initial st0 store0))
        (Executor.initial st0 store0)
  end.

(** Modelled from the spec: a run of what [compile] returned, as
    [Executor.invoke] has it, over the merge given. *)
Definition invoke (merge : MergeFn) (fuel : nat) (compiled : result StateGraph)
    (st0 : State) (store0 : Store) (config : option RunnableConfig) : Outcome :=
  match compiled with
  | Ok g => run merge fuel g st0 store0 config
  | Err e => Aborted e (Executor.initial st0 store0)
  end.

End ExecutorBy.

Module Lenient.

(** Modelled from the spec: the merge of the missing engine as scenario B of
    section 8 runs it. There the update of [generateInsights] is merged and
    its shared write forwarded although the update carries a key the schema
    does not declare; so the declared fields are merged as in
    [Engine.merge] and any other key of the update is passed over. *)
Definition merge (schema : Schema) (config : option RunnableConfig)
    (st : State) (store : Store) (upd : Update) : result (State * Store) :=
  foldl (Engine.merge_field config upd) (Ok (st, store)) schema.

(** Modelled from the spec: a run of the missing executor over that merge. *)
Definition invoke : nat → result StateGraph → State → Store
    → option RunnableConfig → Outcome :=
  ExecutorBy.invoke merge.

End Lenient.

(** ** The agent module *)

Module Agent.

Notation "g |> f" := (f g) (at level 45, left associativity, only parsing).

Definition nl : string := String (ascii_of_nat 10) EmptyString.

(** A template literal, line by line. *)
Definition lines (ls : list string) : string := JsString.join nl ls.

Definition DEFAULT_RULES_STRING : string := "*no rules have been set yet*".

Definition RULES_PROMPT : string :=
  lines [
    "The user has defined two sets of rules. The first set is for style guidelines, and the second set is for content guidelines.";
    "";
    "<style_rules>";
    "{styleRules}";
    "</style_rules>";
    "";
    "<content_rules>";
    "{contentRules}";
    "</content_rules>" ].

Definition SYSTEM_PROMPT : string :=
  lines [
    "You are a helpful assistant tasked with thoughtfully fulfilling the requests of the user.";
    "";
    "System rules:";
    "";
    "<system_rules>";
    "{systemRules}";
    "</system_rules>";
    "";
    "{rulesPrompt}" ].

Definition generateInsights_systemPrompt : string :=
  lines [
    "This conversation contains back and fourth between an AI assistant, and a user who is using the assistant to generate text.";
    "";
    "User messages which are prefixed with " +:+ JsString.dq +:+ "REVISED MESSAGE" +:+ JsString.dq +:+ " contain the entire revised text the user made to the assistant message directly before in the conversation.";
    "Revisions are made directly by users, so you should pay VERY close attention to every single change made, no matter how small. These should be heavily considered when generating rules.";
    "";
    "Important aspects of revisions to consider:";
    "- Deletions: What did the user remove? Do you need a rule to avoid adding this in the future?";
    "- Tone: Did they change the overall tone? Do you need a rule to ensure this tone is maintained?";
    "- Structure: Did they change the structure of the text? This is important to remember, as it may be a common pattern. ";
    "";
    "There also may be additional back and fourth between the user and the assistant.";
    "";
    "Based on the conversation, and paying particular attention to any changes made in the " +:+ JsString.dq +:+ "REVISED MESSAGE" +:+ JsString.dq +:+ ", your job is to create a list of rules to use in the future to help the AI assistant better generate text.";
    "";
    "These rules should be split into two categories:";
    "1. Style guidelines: These rules should focus on the style, tone, and structure of the text.";
    "2. Content guidelines: These rules should focus on the content, context, and purpose of the text. Think of this as the business logic or domain-specific rules.";
    "";
    "In your response, include every single rule you want the AI assistant to follow in the future. You should list rules based on a combination of the existing conversation as well as previous rules.";
    "You can modify previous rules if you think the new conversation has helpful information, or you can delete old rules if they don't seem relevant, or you can add new rules based on the conversation.";
    "";
    "Refrain from adding overly generic rules like " +:+ JsString.dq +:+ "follow instructions" +:+ JsString.dq +:+ ". These generic rules are already outlined in the " +:+ JsString.dq +:+ "system_rules" +:+ JsString.dq +:+ " below.";
    "Instead, focus your attention on specific details, writing style, or other aspects of the conversation that you think are important for the AI to follow.";
    "";
    "The user has defined the following rules:";
    "";
    "<style_rules>";
    "{styleRules}";
    "</style_rules>";
    "";
    "<content_rules>";
    "{contentRules}";
    "</content_rules>";
    "";
    "Here is the conversation:";
    "";
    "<conversation>";
    "{conversation}";
    "</conversation>";
    "";
    "And here are the default system rules:";
    "";
    "<system_rules>";
    "{systemRules}";
    "</system_rules>";
    "";
    "Respond with updated rules to keep in mind for future conversations. Try to keep the rules you list high signal-to-noise - don't include unnecessary ones, but make sure the ones you do add are descriptive. Combine ones that seem similar and/or contradictory" ].

Definition wasContentGenerated_prompt : string :=
  lines [
    "Given the following conversation between a user and an AI assistant, determine whether or not writing content (think, a blog post, or tweet) was generated by the assistant, or if it's just a conversation.";
    "If writing content was generated, set 'contentGenerated' to true, otherwise set it to false.";
    "";
    "<conversation>";
    "{conversation}";
    "</conversation>" ].

(** [_prepareConversation]: one tagged block per message whose content is a
    string, the empty string for any other; reading [content] of an
    [undefined] item throws. *)
Definition _prepareConversation (messages : list value) : result string :=
  parts ← mapR (λ '(i, msg),
    match msg with
    | VUndefined => Err TypeError
    | VMessage m =>
        match content m with
        | ContentText text =>
            Ok ("<" +:+ _getType m +:+ "_message index={" +:+ JsString.ofNat i
                  +:+ "}>" +:+ nl +:+ text +:+ nl
                  +:+ "</" +:+ _getType m +:+ "_message>")
        | ContentBlocks _ => Ok ""
        end
    | VBool _ | VString _ | VRules _ | VArray _ => Ok ""
    end) (imap pair messages);
  Ok (JsString.join (nl +:+ nl) parts).

(** [config?.configurable]. *)
Definition optional_configurable (config : option RunnableConfig)
    : option Configurable :=
  c ← config; configurable c.

(** The conditional edge after [callModel]. *)
Definition shouldCheckContentGeneration (state : State)
    (_config : option RunnableConfig) : Target :=
  if Js.truthy (state !! "contentGenerated") then END
  else To "wasContentGenerated".

(** [{ hasAcceptedText: false, onlyGetRules: false, ...over }]: a property
    of [over] wins over the default on its left. *)
Definition spread (defaults over : Configurable) : Configurable :=
  {| systemRules := from_option Some (systemRules defaults) (systemRules over);
     hasAcceptedText :=
       from_option Some (hasAcceptedText defaults) (hasAcceptedText over);
     onlyGetRules := from_option Some (onlyGetRules defaults) (onlyGetRules over);
     assistant_id := from_option Some (assistant_id defaults) (assistant_id over) |}.

(** The object literal [{}]. *)
Definition empty_object : Configurable :=
  {| systemRules := None; hasAcceptedText := None; onlyGetRules := None;
     assistant_id := None |}.

(** Truthiness of a flag read from an object. *)
Definition flag (b : option bool) : bool := default false b.

(** A routing flag of a run configuration, as a condition. *)
Definition config_flag (proj : Configurable → option bool)
    (config : option RunnableConfig) : bool :=
  flag (o ← optional_configurable config; proj o).

(** The conditional edge which is always called first. *)
Definition shouldGenerateInsights (_state : State)
    (config : option RunnableConfig) : Target :=
  let flags :=
    spread {| systemRules := None; hasAcceptedText := Some false;
              onlyGetRules := Some false; assistant_id := None |}
           (default empty_object (optional_configurable config)) in
  if flag (onlyGetRules flags) then To "getRules"
  else if flag (hasAcceptedText flags) then To "generateInsights"
  else To "callModel".

Definition getRules (state : State) (_config : option RunnableConfig)
    : Comp Update :=
  mret {[ "rules"%string := default VUndefined (state !! "userRules") ]}.

(** The object [generateInsights] returns, from the structured result. *)
Definition generateInsights_return (result : UserRulesResult) : Update :=
  {[ "userRules"%string :=
       VRules {| styleRules := Some (res_styleRules result);
                 contentRules := Some (res_contentRules result) |};
     "userAcceptedText"%string := VBool false ]}.

Section Nodes.

(** [DEFAULT_SYSTEM_RULES] is imported from the constants module. *)
Variable DEFAULT_SYSTEM_RULES : list string.
Variable llm : Collaborators.

Definition DEFAULT_SYSTEM_RULES_STRING : string :=
  "- " +:+ JsString.join (nl +:+ "- ") DEFAULT_SYSTEM_RULES.

(** The system prompt [callModel] sends. In the branch without rules the
    result of [replace] is not assigned. *)
Definition callModel_systemPrompt (state : State)
    (config : option RunnableConfig) : string :=
  let userRules := state !! "userRules" in
  let styleRules : option string :=
    if Js.truthy userRules && Js.has_length (Js.get_styleRules userRules)
    then Some ("- " +:+ JsString.join (nl +:+ " - ")
                          (default [] (Js.get_styleRules userRules)))
    else None in
  let contentRules : option string :=
    if Js.truthy userRules && Js.has_length (Js.get_contentRules userRules)
    then Some ("- " +:+ JsString.join (nl +:+ " - ")
                          (default [] (Js.get_contentRules userRules)))
    else None in
  let systemPrompt :=
    JsString.replace SYSTEM_PROMPT "{systemRules}"
      (default DEFAULT_SYSTEM_RULES_STRING
         (o ← optional_configurable config; systemRules o)) in
  if Js.truthy_str styleRules || Js.truthy_str contentRules then
    JsString.replace
      (JsString.replace
         (JsString.replace systemPrompt "{rulesPrompt}" RULES_PROMPT)
         "{styleRules}" (Js.or_else styleRules DEFAULT_RULES_STRING))
      "{contentRules}" (Js.or_else contentRules DEFAULT_RULES_STRING)
  else
    let _ := JsString.replace systemPrompt "{rulesPrompt}" "" in
    systemPrompt.

Definition callModel (state : State) (config : option RunnableConfig)
    : Comp Update :=
  let systemPrompt := callModel_systemPrompt state config in
  response ← await (chat llm)
    {| model := "claude-3-5-sonnet-20240620"; temperature := 0;
       structuredOutput := None;
       input := RoleContent "system" systemPrompt
                  :: (History <$> Js.items (state !! "messages")) |};
  mret {[ "messages"%string := VArray [VMessage response] ]}.

Definition generateInsights_prompt (state : State)
    (config : option RunnableConfig) : result string :=
  let userRules := state !! "userRules" in
  let styleRules :=
    if Js.truthy userRules && Js.has_length (Js.get_styleRules userRules)
    then "- " +:+ JsString.join (nl +:+ " - ")
                    (default [] (Js.get_styleRules userRules))
    else DEFAULT_RULES_STRING in
  let contentRules :=
    if Js.truthy userRules && Js.has_length (Js.get_contentRules userRules)
    then "- " +:+ JsString.join (nl +:+ " - ")
                    (default [] (Js.get_contentRules userRules))
    else DEFAULT_RULES_STRING in
  conversation ← _prepareConversation (Js.items (state !! "messages"));
  Ok (JsString.replace
        (JsString.replace
           (JsString.replace
              (JsString.replace generateInsights_systemPrompt "{systemRules}"
                 (default DEFAULT_SYSTEM_RULES_STRING
                    (o ← optional_configurable config; systemRules o)))
              "{styleRules}" styleRules)
           "{contentRules}" contentRules)
        "{conversation}" conversation).

Definition generateInsights (state : State) (config : option RunnableConfig)
    : Comp Update :=
  prompt ← liftR (generateInsights_prompt state config);
  result ← await (structuredUserRules llm)
    {| model := "claude-3-5-sonnet-20240620"; temperature := 0;
       structuredOutput := Some "userRules"%string;
       input := [RoleContent "user" prompt] |};
  mret (generateInsights_return result).

Definition wasContentGenerated (state : State)
    (_config : option RunnableConfig) : Comp Update :=
  formattedPrompt ← liftR (
    conversation ← _prepareConversation (Js.items (state !! "messages"));
    Ok (JsString.replace wasContentGenerated_prompt "{conversation}"
          conversation));
  contentGenerated ← await (structuredContentGenerated llm)
    {| model := "claude-3-haiku-20240307"; temperature := 0;
       structuredOutput := Some "was_content_generated"%string;
       input := [RoleContent "user" formattedPrompt] |};
  mret {[ "contentGenerated"%string := VBool contentGenerated ]}.

Definition workflow : StateGraph :=
  newStateGraph GraphAnnotation
  |> addNode "callModel" callModel
  |> addNode "generateInsights" generateInsights
  |> addNode "wasContentGenerated" wasContentGenerated
  |> addNode "getRules" getRules
  |> addConditionalEdges START shouldGenerateInsights
  |> addConditionalEdges (From "callModel") shouldCheckContentGeneration
  |> addEdge (From "generateInsights") END
  |> addEdge (From "wasContentGenerated") END
  |> addEdge (From "getRules") END.

(** [buildGraph]: the store handed to [compile] is the one a run is given. *)
Definition buildGraph : result StateGraph := Executor.compile workflow.

End Nodes.

End Agent.

(** ** The routers as programs over objects *)

Module Heap.

(** A value held in a property: a primitive or immutable value, or a
    reference to an object. Objects hold data properties only. *)
Inductive hval :=
  | Prim (v : value)
  | Ref (l : nat).

Abbreviation Obj := (gmap string hval).

(** What a program can read and change: the objects, by location, and the
    calls made on collaborators. *)
Record World := {
  objects : gmap nat Obj;
  effects : list ModelCall;
}.

Definition Prog (A : Type) : Type := World → A * World.

#[global] Instance Prog_ret : MRet Prog := λ A a w, (a, w).
#[global] Instance Prog_bind : MBind Prog := λ A B f m w,
  f (m w).1 (m w).2.

Definition object_at (w : World) (l : nat) : Obj := default ∅ (objects w !! l).

(** [o.k]: a property that is not there reads as [undefined]. *)
Definition getProp (l : nat) (k : string) : Prog hval := λ w,
  (default (Prim VUndefined) (object_at w l !! k), w).

(** [o.k = v]. *)
Definition setProp (l : nat) (k : string) (v : hval) : Prog unit := λ w,
  (tt, {| objects := <[l := <[k := v]> (object_at w l)]> (objects w);
          effects := effects w |}).

(** An object literal: a new object at a location not in use. *)
Definition alloc (o : Obj) : Prog nat := λ w,
  (fresh (dom (objects w)),
   {| objects := <[fresh (dom (objects w)) := o]> (objects w);
      effects := effects w |}).

(** A call on a collaborator. *)
Definition perform (call : ModelCall) : Prog unit := λ w,
  (tt, {| objects := objects w; effects := effects w ++ [call] |}).

(** Truthiness: every object is truthy. *)
Definition truthy (v : hval) : bool :=
  match v with
  | Ref _ => true
  | Prim v => Js.truthy (Some v)
  end.

(** [o?.k] on an object that may be [undefined]. *)
Definition optionalProp (o : option nat) (k : string) : Prog hval :=
  match o with
  | Some l => getProp l k
  | None => mret (Prim VUndefined)
  end.

(** [v || {}]. *)
Definition orEmptyObject (v : hval) : Prog hval :=
  if truthy v then mret v else l ← alloc ∅; mret (Ref l).

(** The own properties a spread [...v] copies; a boolean or [undefined]
    has none, and those of another primitive are not among the names read
    below. *)
Definition ownProps (v : hval) : Prog Obj := λ w,
  (match v with Ref l => object_at w l | Prim _ => ∅ end, w).

(** [shouldCheckContentGeneration] on a state object. *)
Definition shouldCheckContentGeneration_program (state : nat) : Prog Target :=
  contentGenerated ← getProp state "contentGenerated";
  if truthy contentGenerated then mret END
  else mret (To "wasContentGenerated").

(** [shouldGenerateInsights] on a state object and a configuration object
    that may be [undefined]: the object literal with its spread is built,
    its two properties are read, and the branch is taken. *)
Definition shouldGenerateInsights_program (_state : nat) (config : option nat)
    : Prog Target :=
  configurable ← optionalProp config "configurable";
  source ← orEmptyObject configurable;
  copied ← ownProps source;
  literal ← alloc (copied ∪ {[ "hasAcceptedText"%string := Prim (VBool false);
                               "onlyGetRules"%string := Prim (VBool false) ]});
  hasAcceptedText ← getProp literal "hasAcceptedText";
  onlyGetRules ← getProp literal "onlyGetRules";
  if truthy onlyGetRules then mret (To "getRules")
  else if truthy hasAcceptedText then mret (To "generateInsights")
  else mret (To "callModel").

(** The properties the spread of [config?.configurable || {}] copies. *)
Definition spread_source (w : World) (c : option nat) : Obj :=
  match c with
  | None => ∅
  | Some l =>
      match default (Prim VUndefined) (object_at w l !! "configurable"%string) with
      | Ref lc => object_at w lc
      | Prim _ => ∅
      end
  end.

(** The branch taken on the two properties read from the object literal. *)
Definition route_of (literal : Obj) : Target :=
  if truthy (default (Prim VUndefined) (literal !! "onlyGetRules"%string))
  then To "getRules"
  else if truthy (default (Prim VUndefined)
                    (literal !! "hasAcceptedText"%string))
  then To "generateInsights"
  else To "callModel".

(** Nothing that was there has changed: every object of [w] is in [w'] as
    it was, and no call was made. New objects may have appeared. *)
Definition preserved (w w' : World) : Prop :=
  effects w' = effects w
  ∧ ∀ l o, objects w !! l = Some o → objects w' !! l = Some o.

(** The state object at [l] holds the fields of [st]. *)
Definition holds_state (w : World) (l : nat) (st : State) : Prop :=
  ∀ k, object_at w l !! k = Prim <$> st !! k.

(** The properties of a [configurable] mapping. *)
Definition configurable_object (o : Configurable) : Obj :=
  from_option (λ s, <["systemRules"%string := Prim (VString s)]>) id
    (systemRules o)
    (from_option (λ b, <["hasAcceptedText"%string := Prim (VBool b)]>) id
       (hasAcceptedText o)
       (from_option (λ b, <["onlyGetRules"%string := Prim (VBool b)]>) id
          (onlyGetRules o)
          (from_option (λ s, <["assistant_id"%string := Prim (VString s)]>) id
             (assistant_id o) ∅))).

(** The configuration object, if any, holds the configuration. *)
Definition holds_config (w : World) (c : option nat)
    (config : option RunnableConfig) : Prop :=
  match c, config with
  | None, None => True
  | Some l, Some rc =>
      match configurable rc with
      | None => object_at w l !! "configurable"%string = None
      | Some o =>
          ∃ lc, object_at w l !! "configurable"%string = Some (Ref lc)
                ∧ objects w !! lc = Some (configurable_object o)
      end
  | _, _ => False
  end.

(** The configuration object and the object its [configurable] property
    refers to are there. *)
Definition config_allocated (w : World) (c : option nat) : Prop :=
  match c with
  | None => True
  | Some l =>
      is_Some (objects w !! l)
      ∧ ∀ lc, object_at w l !! "configurable"%string = Some (Ref lc) →
              is_Some (objects w !! lc)
  end.

End Heap.

(** ** Expected texts *)

Module Text.

(** Whether a character occurs in a string. *)
Fixpoint has_char (c : ascii) (s : string) : bool :=
  match s with
  | EmptyString => false
  | String d t => Ascii.eqb c d || has_char c t
  end.

(** A text with no brace to be taken for a placeholder and no dollar sign
    to be taken for a replacement pattern. *)
Definition plain (s : string) : bool :=
  negb (has_char "{" s) && negb (has_char "$" s).

(** Segments put end to end. *)
Fixpoint cat (segments : list string) : string :=
  match segments with
  | [] => EmptyString
  | s :: rest => s +:+ cat rest
  end.

End Text.

Module Expected.

Import Agent.

(** How a list of rules is shown in a prompt: a bullet list, or the notice
    that no rules have been set. *)
Definition rulesText (rules : option (list string)) : string :=
  if Js.has_length rules
  then "- " +:+ JsString.join (nl +:+ " - ") (default [] rules)
  else DEFAULT_RULES_STRING.

(** [RULES_PROMPT] with both placeholders filled. *)
Definition rulesSection (styleText contentText : string) : string :=
  lines [
    "The user has defined two sets of rules. The first set is for style guidelines, and the second set is for content guidelines.";
    "";
    "<style_rules>";
    styleText;
    "</style_rules>";
    "";
    "<content_rules>";
    contentText;
    "</content_rules>" ].

(** [SYSTEM_PROMPT] with both placeholders filled. *)
Definition systemPrompt (systemRulesText rulesSection : string) : string :=
  lines [
    "You are a helpful assistant tasked with thoughtfully fulfilling the requests of the user.";
    "";
    "System rules:";
    "";
    "<system_rules>";
    systemRulesText;
    "</system_rules>";
    "";
    rulesSection ].

(** The prompt of [generateInsights] with its four placeholders filled. *)
Definition insightsPrompt
    (styleText contentText conversation systemRulesText : string) : string :=
  lines [
    "This conversation contains back and fourth between an AI assistant, and a user who is using the assistant to generate text.";
    "";
    "User messages which are prefixed with " +:+ JsString.dq +:+ "REVISED MESSAGE" +:+ JsString.dq +:+ " contain the entire revised text the user made to the assistant message directly before in the conversation.";
    "Revisions are made directly by users, so you should pay VERY close attention to every single change made, no matter how small. These should be heavily considered when generating rules.";
    "";
    "Important aspects of revisions to consider:";
    "- Deletions: What did the user remove? Do you need a rule to avoid adding this in the future?";
    "- Tone: Did they change the overall tone? Do you need a rule to ensure this tone is maintained?";
    "- Structure: Did they change the structure of the text? This is important to remember, as it may be a common pattern. ";
    "";
    "There also may be additional back and fourth between the user and the assistant.";
    "";
    "Based on the conversation, and paying particular attention to any changes made in the " +:+ JsString.dq +:+ "REVISED MESSAGE" +:+ JsString.dq +:+ ", your job is to create a list of rules to use in the future to help the AI assistant better generate text.";
    "";
    "These rules should be split into two categories:";
    "1. Style guidelines: These rules should focus on the style, tone, and structure of the text.";
    "2. Content guidelines: These rules should focus on the content, context, and purpose of the text. Think of this as the business logic or domain-specific rules.";
    "";
    "In your response, include every single rule you want the AI assistant to follow in the future. You should list rules based on a combination of the existing conversation as well as previous rules.";
    "You can modify previous rules if you think the new conversation has helpful information, or you can delete old rules if they don't seem relevant, or you can add new rules based on the conversation.";
    "";
    "Refrain from adding overly generic rules like " +:+ JsString.dq +:+ "follow instructions" +:+ JsString.dq +:+ ". These generic rules are already outlined in the " +:+ JsString.dq +:+ "system_rules" +:+ JsString.dq +:+ " below.";
    "Instead, focus your attention on specific details, writing style, or other aspects of the conversation that you think are important for the AI to follow.";
    "";
    "The user has defined the following rules:";
    "";
    "<style_rules>";
    styleText;
    "</style_rules>";
    "";
    "<content_rules>";
    contentText;
    "</content_rules>";
    "";
    "Here is the conversation:";
    "";
    "<conversation>";
    conversation;
    "</conversation>";
    "";
    "And here are the default system rules:";
    "";
    "<system_rules>";
    systemRulesText;
    "</system_rules>";
    "";
    "Respond with updated rules to keep in mind for future conversations. Try to keep the rules you list high signal-to-noise - don't include unnecessary ones, but make sure the ones you do add are descriptive. Combine ones that seem similar and/or contradictory" ].

(** The prompt of [wasContentGenerated] with its placeholder filled. *)
Definition contentCheckPrompt (conversation : string) : string :=
  lines [
    "Given the following conversation between a user and an AI assistant, determine whether or not writing content (think, a blog post, or tweet) was generated by the assistant, or if it's just a conversation.";
    "If writing content was generated, set 'contentGenerated' to true, otherwise set it to false.";
    "";
    "<conversation>";
    conversation;
    "</conversation>" ].

(** The block [_prepareConversation] writes for the text message at
    position [i]. *)
Definition block (i : nat) (m : BaseMessage) (text : string) : string :=
  "<" +:+ _getType m +:+ "_message index={" +:+ JsString.ofNat i +:+ "}>"
    +:+ nl +:+ text +:+ nl +:+ "</" +:+ _getType m +:+ "_message>".

(** What [_prepareConversation] writes for the item at position [i]: the
    block of a text message, nothing for any other item. *)
Definition blockOf (i : nat) (v : value) : string :=
  match v with
  | VMessage m =>
      match content m with
      | ContentText text => block i m text
      | ContentBlocks _ => ""
      end
  | _ => ""
  end.

(** The conversation text of a history: its blocks, a blank line apart. *)
Definition conversation (messages : list value) : string :=
  JsString.join (nl +:+ nl) (imap blockOf messages).

(** A message whose type and text carry no dollar sign, or whose content is
    not a string. *)
Definition quiet_message (v : value) : bool :=
  match v with
  | VMessage m =>
      match content m with
      | ContentText text =>
          negb (Text.has_char "$" (_getType m)) && negb (Text.has_char "$" text)
      | ContentBlocks _ => true
      end
  | _ => false
  end.

(** The system rules a prompt shows: those of the configuration, or the
    default ones. *)
Definition systemRulesText (DEFAULT_SYSTEM_RULES : list string)
    (config : option RunnableConfig) : string :=
  default (DEFAULT_SYSTEM_RULES_STRING DEFAULT_SYSTEM_RULES)
    (o ← optional_configurable config; systemRules o).

(** The one request [callModel] sends. *)
Definition chatRequest (DEFAULT_SYSTEM_RULES : list string) (state : State)
    (config : option RunnableConfig) : ModelCall :=
  {| model := "claude-3-5-sonnet-20240620"; temperature := 0;
     structuredOutput := None;
     input := RoleContent "system"
                (callModel_systemPrompt DEFAULT_SYSTEM_RULES state config)
                :: (History <$> Js.items (state !! "messages"%string)) |}.

(** The one request [generateInsights] sends, for a prompt. *)
Definition insightsRequest (prompt : string) : ModelCall :=
  {| model := "claude-3-5-sonnet-20240620"; temperature := 0;
     structuredOutput := Some "userRules"%string;
     input := [RoleContent "user" prompt] |}.

(** The one request [wasContentGenerated] sends for a conversation. *)
Definition contentCheckRequest (conversation : string) : ModelCall :=
  {| model := "claude-3-haiku-20240307"; temperature := 0;
     structuredOutput := Some "was_content_generated"%string;
     input := [RoleContent "user" (contentCheckPrompt conversation)] |}.

End Expected.

(** ** Sample inputs *)

Module Sample.

Definition DEFAULT_SYSTEM_RULES : list string :=
  ["Be helpful"; "Stay on topic"]%string.

Definition reply : BaseMessage :=
  {| _getType := "ai"; content := ContentText "Here is a draft." |}.

Definition concise : UserRulesResult :=
  {| res_contentRules := []; res_styleRules := ["be concise"%string] |}.

(** Collaborators that answer every call. *)
Definition llm : Collaborators :=
  {| chat := λ _, Ok reply;
     structuredUserRules := λ _, Ok concise;
     structuredContentGenerated := λ _, Ok false |}.

Definition stored_rules : value :=
  VRules {| styleRules := Some ["be concise"%string]; contentRules := Some [] |}.

Definition config_with (accepted only : option bool) : option RunnableConfig :=
  Some {| configurable := Some
    {| systemRules := None; hasAcceptedText := accepted; onlyGetRules := only;
       assistant_id := Some "assistant-1"%string |} |}.

Definition hello : value :=
  VMessage {| _getType := "human"; content := ContentText "Write a tweet." |}.

(** A state object, a configuration object and its [configurable] object,
    as a caller would hold them. *)
Definition world : Heap.World :=
  {| Heap.objects :=
       {[ 0 := {[ "contentGenerated"%string := Heap.Prim (VBool false) ]};
          1 := {[ "configurable"%string := Heap.Ref 2 ]};
          2 := Heap.configurable_object
                 {| systemRules := None; hasAcceptedText := Some true;
                    onlyGetRules := None;
                    assistant_id := Some "assistant-1"%string |} ]};
     Heap.effects := [] |}.

(** A state with a history and the stored rules as a node reads them. *)
Definition state_with_rules : State :=
  {[ "messages"%string := VArray [hello; VMessage reply];
     "userRules"%string := stored_rules ]}.

End Sample.

(** * Properties *)

Import Agent.

(** ** JavaScript strings *)

Example replace_first_only :
  JsString.replace "a{x}b{x}" "{x}" "1" = "a1b{x}"%string.
Proof. reflexivity. Qed.

Example replace_dollar_patterns :
  JsString.replace "ab{x}cd" "{x}" "[$$|$&|$`|$'|$1]" = "ab[$|{x}|ab|cd|$1]cd"%string.
Proof. reflexivity. Qed.

Example replace_absent : JsString.replace "abc" "{x}" "1" = "abc"%string.
Proof. reflexivity. Qed.

Example join_rules :
  JsString.join "; " ["a"; "b"; "c"]%string = "a; b; c"%string.
Proof. reflexivity. Qed.

Example ofNat_12 : JsString.ofNat 12 = "12"%string.
Proof. reflexivity. Qed.

Lemma includes_app_r (pat x y : string) :
  JsString.includes pat y = true → JsString.includes pat (x +:+ y) = true.
Proof.
  intros Hy. induction x as [|c x IH]; [exact Hy|].
  change (String c x +:+ y) with (String c (x +:+ y)).
  cbn [JsString.includes]. rewrite IH. apply orb_true_r.
Qed.

Lemma includes_replace_other (pat s p replacement : string) (pos : nat) :
  JsString.indexOf p s = Some pos →
  JsString.includes pat (JsString.drop (pos + String.length p) s) = true →
  JsString.includes pat (JsString.replace s p replacement) = true.
Proof.
  intros Hpos Htail. unfold JsString.replace. rewrite Hpos.
  by do 2 apply includes_app_r.
Qed.

(** ** The merge engine on [GraphAnnotation] *)

Section MergeSteps.

Context (config : option RunnableConfig).
Implicit Types (st : State) (store : Store) (upd : Update).

Lemma merge_field_absent st store upd f p :
  upd !! f = None →
  Engine.merge_field config upd (Ok (st, store)) (f, p) = Ok (st, store).
Proof. intros H. unfold Engine.merge_field. cbn. by rewrite H. Qed.

Lemma merge_field_replace st store upd f v :
  upd !! f = Some v →
  Engine.merge_field config upd (Ok (st, store)) (f, Replace)
  = Ok (<[f := v]> st, store).
Proof. intros H. unfold Engine.merge_field. cbn. by rewrite H. Qed.

Lemma merge_field_append st store upd f v :
  upd !! f = Some v →
  Engine.merge_field config upd (Ok (st, store)) (f, Append)
  = Ok (<[f := VArray (Js.items (st !! f) ++ Js.items (Some v))]> st, store).
Proof. intros H. unfold Engine.merge_field. cbn. by rewrite H. Qed.

Lemma merge_field_shared st store upd f on v key :
  upd !! f = Some v →
  Engine.partitionKey on config = Some key →
  Engine.merge_field config upd (Ok (st, store)) (f, Shared on)
  = Ok (st, <[key := v]> store).
Proof. intros H Hk. unfold Engine.merge_field. cbn. by rewrite H, Hk. Qed.

Lemma merge_field_shared_nokey st store upd f on v :
  upd !! f = Some v →
  Engine.partitionKey on config = None →
  Engine.merge_field config upd (Ok (st, store)) (f, Shared on)
  = Err MissingPartitionKey.
Proof. intros H Hk. unfold Engine.merge_field. cbn. by rewrite H, Hk. Qed.

Lemma merge_field_failed upd e entry :
  Engine.merge_field config upd (Err e) entry = Err e.
Proof. reflexivity. Qed.

Lemma merge_GraphAnnotation st store upd :
  Engine.undeclared GraphAnnotation upd = [] →
  Engine.merge GraphAnnotation config st store upd
  = Engine.merge_field config upd
      (Engine.merge_field config upd
         (Engine.merge_field config upd
            (Engine.merge_field config upd (Ok (st, store))
               ("messages"%string, Append))
            ("userRules"%string, Shared assistant_id))
         ("contentGenerated"%string, Replace))
      ("rules"%string, Replace).
Proof. intros H. unfold Engine.merge. by rewrite H. Qed.

Lemma merge_undeclared st store upd f fs :
  Engine.undeclared GraphAnnotation upd = f :: fs →
  Engine.merge GraphAnnotation config st store upd
  = Err (UnknownFieldError (f :: fs)).
Proof. intros H. unfold Engine.merge. by rewrite H. Qed.

Lemma view_GraphAnnotation st store :
  Engine.view GraphAnnotation config st store
  = match Engine.get store (Engine.partitionKey assistant_id config) with
    | Some v => <["userRules"%string := v]> st
    | None => delete "userRules"%string st
    end.
Proof. reflexivity. Qed.

End MergeSteps.

(** Run the four field steps of a merge whose update is a map literal. *)
Ltac merge_steps :=
  rewrite merge_GraphAnnotation by reflexivity;
  repeat first
    [ rewrite merge_field_absent by reflexivity
    | erewrite merge_field_replace by reflexivity
    | erewrite merge_field_append by reflexivity
    | erewrite merge_field_shared by first [reflexivity | eassumption]
    | erewrite merge_field_shared_nokey by first [reflexivity | eassumption]
    | rewrite merge_field_failed ].

Section MergeFacts.

Context (config : option RunnableConfig).
Implicit Types (st : State) (store : Store) (upd : Update).

(** A replace-policy update of [rules]. *)
Lemma merge_rules st store v :
  Engine.merge GraphAnnotation config st store {[ "rules"%string := v ]}
  = Ok (<["rules"%string := v]> st, store).
Proof. by merge_steps. Qed.

Lemma merge_contentGenerated st store v :
  Engine.merge GraphAnnotation config st store {[ "contentGenerated"%string := v ]}
  = Ok (<["contentGenerated"%string := v]> st, store).
Proof. by merge_steps. Qed.

(** An append-policy update of [messages]. *)
Lemma merge_messages st store v :
  Engine.merge GraphAnnotation config st store {[ "messages"%string := v ]}
  = Ok (<["messages"%string :=
            VArray (Js.items (st !! "messages"%string) ++ Js.items (Some v))]> st,
        store).
Proof. by merge_steps. Qed.

(** A write to the shared field is forwarded to the store under the
    partition key and leaves the transient state alone. *)
Lemma merge_userRules st store key v :
  Engine.partitionKey assistant_id config = Some key →
  Engine.merge GraphAnnotation config st store {[ "userRules"%string := v ]}
  = Ok (st, <[key := v]> store).
Proof. intros Hkey. by merge_steps. Qed.

End MergeFacts.

(** ** The executor *)

Section ExecutorFacts.

Context (g : StateGraph) (config : option RunnableConfig).

Lemma drive_END fuel r :
  Executor.drive fuel g config END r = Finished (Executor.visible g config r) r.
Proof. by destruct fuel. Qed.

Lemma drive_step fuel name r :
  Executor.drive (S fuel) g config (To name) r
  = match Executor.exec_node g config name r with
    | inl (e, r') => Aborted e r'
    | inr r' =>
        match Executor.next g config name r' with
        | Err e => Aborted e r'
        | Ok t' => Executor.drive fuel g config t' r'
        end
    end.
Proof. reflexivity. Qed.

Lemma exec_node_ok name r fn upd st' store' :
  nodes g !! name = Some fn →
  outcome (fn (Executor.visible g config r) config) = Ok upd →
  Engine.merge (schema g) config (state r) (store r) upd = Ok (st', store') →
  Executor.exec_node g config name r
  = inr {| state := st'; store := store';
           called := called r ++ calls (fn (Executor.visible g config r) config);
           trace := trace r ++ [name] |}.
Proof.
  intros Hfn Hupd Hmerge. unfold Executor.exec_node.
  rewrite Hfn. cbn zeta. by rewrite Hupd, Hmerge.
Qed.

Lemma exec_node_throws name r fn e :
  nodes g !! name = Some fn →
  outcome (fn (Executor.visible g config r) config) = Err e →
  Executor.exec_node g config name r
  = inl (e, {| state := state r; store := store r;
               called := called r ++ calls (fn (Executor.visible g config r) config);
               trace := trace r ++ [name] |}).
Proof.
  intros Hfn Herr. unfold Executor.exec_node.
  rewrite Hfn. cbn zeta. by rewrite Herr.
Qed.

Lemma exec_node_rejected name r fn upd e :
  nodes g !! name = Some fn →
  outcome (fn (Executor.visible g config r) config) = Ok upd →
  Engine.merge (schema g) config (state r) (store r) upd = Err e →
  Executor.exec_node g config name r
  = inl (e, {| state := state r; store := store r;
               called := called r ++ calls (fn (Executor.visible g config r) config);
               trace := trace r ++ [name] |}).
Proof.
  intros Hfn Hupd Hmerge. unfold Executor.exec_node.
  rewrite Hfn. cbn zeta. by rewrite Hupd, Hmerge.
Qed.

(** A node execution adds exactly one entry to the trace, and keeps the
    store when it fails. *)
Lemma exec_node_registered name r fn :
  nodes g !! name = Some fn →
  match Executor.exec_node g config name r with
  | inl (_, r') => trace r' = trace r ++ [name] ∧ store r' = store r
                   ∧ state r' = state r
  | inr r' => trace r' = trace r ++ [name]
  end.
Proof.
  intros Hfn. unfold Executor.exec_node. rewrite Hfn. cbn zeta.
  destruct (outcome _) as [upd|e]; [|done].
  by destruct (Engine.merge _ _ _ _ _) as [[st' store']|e].
Qed.

End ExecutorFacts.

(** ** The topology built by [buildGraph] *)

Section Topology.

Context (DEFAULT_SYSTEM_RULES : list string) (llm : Collaborators).

Local Abbreviation g := (workflow DEFAULT_SYSTEM_RULES llm).

Lemma workflow_schema : schema g = GraphAnnotation.
Proof. reflexivity. Qed.

Lemma workflow_entry : entry g = Some (Conditional shouldGenerateInsights).
Proof. reflexivity. Qed.

Lemma workflow_callModel :
  nodes g !! "callModel"%string = Some (callModel DEFAULT_SYSTEM_RULES llm)
  ∧ edges g !! "callModel"%string = Some (Conditional shouldCheckContentGeneration).
Proof. split; reflexivity. Qed.

Lemma workflow_generateInsights :
  nodes g !! "generateInsights"%string
    = Some (generateInsights DEFAULT_SYSTEM_RULES llm)
  ∧ edges g !! "generateInsights"%string = Some (Direct END).
Proof. split; reflexivity. Qed.

Lemma workflow_wasContentGenerated :
  nodes g !! "wasContentGenerated"%string = Some (wasContentGenerated llm)
  ∧ edges g !! "wasContentGenerated"%string = Some (Direct END).
Proof. split; reflexivity. Qed.

Lemma workflow_getRules :
  nodes g !! "getRules"%string = Some getRules
  ∧ edges g !! "getRules"%string = Some (Direct END).
Proof. split; reflexivity. Qed.

Lemma buildGraph_compiles : buildGraph DEFAULT_SYSTEM_RULES llm = Ok g.
Proof.
  unfold buildGraph, Executor.compile.
  assert (Executor.well_formed (workflow DEFAULT_SYSTEM_RULES llm) = true)
    as -> by (vm_compute; reflexivity).
  reflexivity.
Qed.

Lemma visible_workflow config r :
  Executor.visible g config r
  = match Engine.get (store r) (Engine.partitionKey assistant_id config) with
    | Some v => <["userRules"%string := v]> (state r)
    | None => delete "userRules"%string (state r)
    end.
Proof. reflexivity. Qed.

End Topology.

(** ** The routers *)

Lemma shouldGenerateInsights_flags st config :
  shouldGenerateInsights st config
  = if config_flag onlyGetRules config then To "getRules"
    else if config_flag hasAcceptedText config then To "generateInsights"
    else To "callModel".
Proof.
  unfold shouldGenerateInsights, config_flag.
  destruct config as [[[[sr [a|] [o|] aid]|]]|]; reflexivity.
Qed.

Lemma shouldCheckContentGeneration_reads st st' config config' :
  Js.truthy (st !! "contentGenerated"%string)
    = Js.truthy (st' !! "contentGenerated"%string) →
  shouldCheckContentGeneration st config
  = shouldCheckContentGeneration st' config'.
Proof. unfold shouldCheckContentGeneration. by intros ->. Qed.

Lemma shouldCheckContentGeneration_targets st config :
  shouldCheckContentGeneration st config = END
  ∨ shouldCheckContentGeneration st config = To "wasContentGenerated".
Proof. unfold shouldCheckContentGeneration. destruct (Js.truthy _); auto. Qed.

(** The run starts at the target the initial router returns for the
    caller's state, with the run state as the caller supplied it. *)
Lemma invoke_starts D llm fuel st0 store0 config :
  Executor.invoke fuel (buildGraph D llm) st0 store0 config
  = Executor.drive fuel (workflow D llm) config
      (shouldGenerateInsights
         (Executor.visible (workflow D llm) config (Executor.initial st0 store0))
         config)
      (Executor.initial st0 store0).
Proof. by rewrite buildGraph_compiles. Qed.

(** C8. The initial route does not depend on the state: any two states give
    the same first node under one configuration, and that node is a function
    of the flags [onlyGetRules] and [hasAcceptedText] alone. *)
Theorem initial_route_ignores_state :
  (∀ (s1 s2 : State) (c : option RunnableConfig),
      shouldGenerateInsights s1 c = shouldGenerateInsights s2 c)
  ∧ (∀ (s : State) (c : option RunnableConfig),
        shouldGenerateInsights s c
        = if config_flag onlyGetRules c then To "getRules"
          else if config_flag hasAcceptedText c then To "generateInsights"
          else To "callModel").
Proof.
  split.
  - intros s1 s2 c. by rewrite !shouldGenerateInsights_flags.
  - apply shouldGenerateInsights_flags.
Qed.

(** C10. A missing flag counts as false for the initial router: with no
    configuration, or with no [configurable] mapping, the route is
    [callModel]; a [configurable] that omits a flag routes as the same
    mapping with that flag set to false; and a run invoked with no
    configuration at all starts at the [callModel] node. *)
Theorem missing_flags_default_to_false :
  (∀ s : State, shouldGenerateInsights s None = To "callModel")
  ∧ (∀ s : State,
        shouldGenerateInsights s (Some {| configurable := None |})
        = To "callModel")
  ∧ (∀ (s : State) sr a o aid,
        shouldGenerateInsights s
          (Some {| configurable := Some
             {| systemRules := sr; hasAcceptedText := a; onlyGetRules := o;
                assistant_id := aid |} |})
        = shouldGenerateInsights s
            (Some {| configurable := Some
               {| systemRules := sr;
                  hasAcceptedText := Some (default false a);
                  onlyGetRules := Some (default false o);
                  assistant_id := aid |} |}))
  ∧ (∀ D llm fuel st0 store0,
        Executor.invoke fuel (buildGraph D llm) st0 store0 None
        = Executor.drive fuel (workflow D llm) None (To "callModel")
            (Executor.initial st0 store0)).
Proof.
  split; [|split; [|split]].
  - reflexivity.
  - reflexivity.
  - intros s sr [a|] [o|] aid; reflexivity.
  - intros. by rewrite invoke_starts.
Qed.

(** ** The nodes *)

Section NodeFacts.

Context (DEFAULT_SYSTEM_RULES : list string) (llm : Collaborators).
Implicit Types (state : State) (config : option RunnableConfig).

Lemma callModel_systemPrompt_no_rules state config :
  Js.has_length (Js.get_styleRules (state !! "userRules"%string)) = false →
  Js.has_length (Js.get_contentRules (state !! "userRules"%string)) = false →
  callModel_systemPrompt DEFAULT_SYSTEM_RULES state config
  = JsString.replace SYSTEM_PROMPT "{systemRules}"
      (default (DEFAULT_SYSTEM_RULES_STRING DEFAULT_SYSTEM_RULES)
         (o ← optional_configurable config; systemRules o)).
Proof.
  intros Hs Hc. unfold callModel_systemPrompt.
  by rewrite Hs, Hc, !andb_false_r.
Qed.

Lemma callModel_calls state config :
  calls (callModel DEFAULT_SYSTEM_RULES llm state config)
  = [ {| model := "claude-3-5-sonnet-20240620"; temperature := 0;
         structuredOutput := None;
         input := RoleContent "system"
                    (callModel_systemPrompt DEFAULT_SYSTEM_RULES state config)
                    :: (History <$> Js.items (state !! "messages"%string)) |} ].
Proof.
  unfold callModel, await, mbind, Comp_bind. cbn.
  by destruct (chat llm _).
Qed.

Lemma callModel_outcome state config upd :
  outcome (callModel DEFAULT_SYSTEM_RULES llm state config) = Ok upd →
  ∃ response, upd = {[ "messages"%string := VArray [VMessage response] ]}.
Proof.
  unfold callModel, await, mbind, Comp_bind. cbn.
  destruct (chat llm _) as [response|e]; cbn; [|done].
  intros [= <-]. by exists response.
Qed.

Lemma generateInsights_outcome state config upd :
  outcome (generateInsights DEFAULT_SYSTEM_RULES llm state config) = Ok upd →
  ∃ result, upd = generateInsights_return result.
Proof.
  unfold generateInsights, liftR, await, mbind, Comp_bind. cbn.
  destruct (generateInsights_prompt _ _ _) as [prompt|e]; cbn; [|done].
  destruct (structuredUserRules llm _) as [result|e]; cbn; [|done].
  intros [= <-]. by exists result.
Qed.

Lemma wasContentGenerated_outcome state config upd :
  outcome (wasContentGenerated llm state config) = Ok upd →
  ∃ b, upd = {[ "contentGenerated"%string := VBool b ]}.
Proof.
  unfold wasContentGenerated, liftR, await, mbind, Comp_bind. cbn.
  destruct (_prepareConversation _) as [conversation|e]; cbn; [|done].
  destruct (structuredContentGenerated llm _) as [b|e]; cbn; [|done].
  intros [= <-]. by exists b.
Qed.

Lemma getRules_run state config :
  getRules state config
  = {| calls := [];
       outcome := Ok {[ "rules"%string :=
                          default VUndefined (state !! "userRules"%string) ]} |}.
Proof. reflexivity. Qed.

(** The updates of the three other nodes touch declared fields only. *)
Lemma sibling_updates_declared state config upd :
  outcome (callModel DEFAULT_SYSTEM_RULES llm state config) = Ok upd
  ∨ outcome (wasContentGenerated llm state config) = Ok upd
  ∨ outcome (getRules state config) = Ok upd →
  Engine.undeclared GraphAnnotation upd = [].
Proof.
  intros [H|[H|H]].
  - by apply callModel_outcome in H as [response ->].
  - by apply wasContentGenerated_outcome in H as [b ->].
  - rewrite getRules_run in H. by injection H as <-.
Qed.

Lemma generateInsights_return_undeclared result :
  Engine.undeclared GraphAnnotation (generateInsights_return result)
  = ["userAcceptedText"%string].
Proof. reflexivity. Qed.

End NodeFacts.

(** C1. The update [generateInsights] returns touches the field
    [userAcceptedText], which [GraphAnnotation] does not declare: whenever
    the node returns, merging its update is rejected whole with
    [UnknownFieldError], whatever the state, the store and the
    configuration. The other three nodes return declared fields only
    ([sibling_updates_declared]). *)
Theorem generateInsights_touches_undeclared_field :
  Engine.declared GraphAnnotation
    = ["messages"; "userRules"; "contentGenerated"; "rules"]%string
  ∧ Engine.is_declared GraphAnnotation "userAcceptedText" = false
  ∧ (∀ result,
        generateInsights_return result !! "userAcceptedText"%string
        = Some (VBool false))
  ∧ (∀ D llm state config upd,
        outcome (generateInsights D llm state config) = Ok upd →
        upd !! "userAcceptedText"%string = Some (VBool false)
        ∧ ∀ config' st store,
            Engine.merge GraphAnnotation config' st store upd
            = Err (UnknownFieldError ["userAcceptedText"%string])).
Proof.
  split; [reflexivity|]. split; [reflexivity|]. split; [reflexivity|].
  intros D llm state config upd [result ->]%generateInsights_outcome.
  split; [reflexivity|]. intros config' st store.
  apply merge_undeclared, generateInsights_return_undeclared.
Qed.

Lemma generateInsights_touches_undeclared_field_witness :
  outcome (generateInsights Sample.DEFAULT_SYSTEM_RULES Sample.llm
             {[ "messages"%string := VArray [Sample.hello] ]}
             (Sample.config_with (Some true) None))
    = Ok (generateInsights_return Sample.concise)
  ∧ Engine.merge GraphAnnotation (Sample.config_with (Some true) None)
      {[ "messages"%string := VArray [Sample.hello] ]} ∅
      (generateInsights_return Sample.concise)
    = Err (UnknownFieldError ["userAcceptedText"%string]).
Proof.
  destruct generateInsights_touches_undeclared_field as (_ & _ & _ & H).
  assert (outcome (generateInsights Sample.DEFAULT_SYSTEM_RULES Sample.llm
             {[ "messages"%string := VArray [Sample.hello] ]}
             (Sample.config_with (Some true) None))
          = Ok (generateInsights_return Sample.concise)) as Hout
    by (vm_compute; reflexivity).
  split; [exact Hout|].
  exact (proj2 (H _ _ _ _ _ Hout) _ _ _).
Defined.

(** C3. In the branch of [callModel] without rules the placeholder is not
    replaced: the result of [replace] is dropped, so the system message sent
    to the model still contains the text [{rulesPrompt}]. *)
Theorem callModel_keeps_rulesPrompt_placeholder :
  ∀ D llm (state : State) (config : option RunnableConfig),
    Js.has_length (Js.get_styleRules (state !! "userRules"%string)) = false →
    Js.has_length (Js.get_contentRules (state !! "userRules"%string)) = false →
    ∃ call history,
      calls (callModel D llm state config) = [call]
      ∧ input call = RoleContent "system" (callModel_systemPrompt D state config)
                       :: history
      ∧ JsString.includes "{rulesPrompt}" (callModel_systemPrompt D state config)
        = true.
Proof.
  intros D llm state config Hs Hc.
  eexists _, _. split; [apply callModel_calls|]. split; [reflexivity|].
  rewrite callModel_systemPrompt_no_rules by done.
  eapply includes_replace_other; vm_compute; reflexivity.
Qed.

Lemma callModel_keeps_rulesPrompt_placeholder_witness :
  ∃ call history,
    calls (callModel Sample.DEFAULT_SYSTEM_RULES Sample.llm
             {[ "messages"%string := VArray [Sample.hello] ]} None) = [call]
    ∧ input call
      = RoleContent "system"
          (callModel_systemPrompt Sample.DEFAULT_SYSTEM_RULES
             {[ "messages"%string := VArray [Sample.hello] ]} None) :: history
    ∧ JsString.includes "{rulesPrompt}"
        (callModel_systemPrompt Sample.DEFAULT_SYSTEM_RULES
           {[ "messages"%string := VArray [Sample.hello] ]} None) = true.
Proof.
  apply callModel_keeps_rulesPrompt_placeholder; reflexivity.
Defined.

Example callModel_systemPrompt_sample :
  callModel_systemPrompt Sample.DEFAULT_SYSTEM_RULES
    {[ "messages"%string := VArray [Sample.hello] ]} None
  = lines [
      "You are a helpful assistant tasked with thoughtfully fulfilling the requests of the user.";
      "";
      "System rules:";
      "";
      "<system_rules>";
      "- Be helpful";
      "- Stay on topic";
      "</system_rules>";
      "";
      "{rulesPrompt}" ]%string.
Proof. vm_compute. reflexivity. Qed.

(** ** Append fields *)

Lemma merge_all_cons schema config st store upd upds :
  Engine.merge_all schema config st store (upd :: upds)
  = match Engine.merge schema config st store upd with
    | Ok (st', store') => Engine.merge_all schema config st' store' upds
    | Err e => Err e
    end.
Proof.
  unfold Engine.merge_all. cbn [foldl mbind result_bind].
  destruct (Engine.merge schema config st store upd) as [[st' store']|e];
    [done|].
  by induction upds.
Qed.

(** One merge extends [messages] by the items of the update, whatever else
    the update touches. *)
Lemma merge_extends_messages config st store upd st' store' :
  Engine.merge GraphAnnotation config st store upd = Ok (st', store') →
  Js.items (st' !! "messages"%string)
  = Js.items (st !! "messages"%string) ++ Js.items (upd !! "messages"%string).
Proof.
  unfold Engine.merge.
  destruct (Engine.undeclared GraphAnnotation upd); [|done].
  cbn [foldl GraphAnnotation MessagesAnnotation_spec app].
  unfold Engine.merge_field, Engine.put, SharedValue_on, Annotation.
  cbn [fst snd mbind result_bind].
  destruct (upd !! "messages"%string) as [m|];
    (destruct (upd !! "userRules"%string) as [u|];
      [destruct (Engine.partitionKey assistant_id config) as [k|]; [|done]|]);
    destruct (upd !! "contentGenerated"%string) as [c|];
    destruct (upd !! "rules"%string) as [r|];
    intros [= <- <-];
    rewrite ?(lookup_insert_ne _ "rules"%string "messages"%string) by done;
    rewrite ?(lookup_insert_ne _ "contentGenerated"%string "messages"%string)
      by done;
    rewrite ?lookup_insert_eq; cbn [Js.items];
    by rewrite ?app_nil_r.
Qed.

Lemma merge_all_extends_messages config upds :
  ∀ st store st' store',
    Engine.merge_all GraphAnnotation config st store upds = Ok (st', store') →
    Js.items (st' !! "messages"%string)
    = Js.items (st !! "messages"%string)
        ++ concat ((λ upd, Js.items (upd !! "messages"%string)) <$> upds).
Proof.
  induction upds as [|upd upds IH]; intros st store st' store'.
  - intros [= <- <-]. cbn. by rewrite app_nil_r.
  - rewrite merge_all_cons.
    destruct (Engine.merge _ _ _ _ upd) as [[st1 store1]|e] eqn:Hone; [|done].
    intros Hrest. rewrite (IH _ _ _ _ Hrest).
    rewrite (merge_extends_messages _ _ _ _ _ _ Hone).
    cbn [fmap list_fmap concat]. by rewrite app_assoc.
Qed.

(** C6. Updates of the append field [messages] concatenate in arrival order:
    merging any sequence of such updates succeeds, leaves the store as it
    was, and yields the previous items followed by the items of each update
    in turn, an array contributing its items one by one in their order and
    any other value contributing itself as a single item. *)
Theorem messages_updates_concatenate :
  ∀ (config : option RunnableConfig) (vs : list value) (st : State)
    (store : Store),
    ∃ st',
      Engine.merge_all GraphAnnotation config st store
        ((λ v, {[ "messages"%string := v ]}) <$> vs) = Ok (st', store)
      ∧ Js.items (st' !! "messages"%string)
        = Js.items (st !! "messages"%string)
            ++ concat ((λ v, match v with VArray l => l | _ => [v] end) <$> vs).
Proof.
  intros config vs. induction vs as [|v vs IH]; intros st store.
  - exists st. split; [reflexivity|]. cbn. by rewrite app_nil_r.
  - cbn [fmap list_fmap]. rewrite merge_all_cons, merge_messages.
    destruct (IH (<["messages"%string :=
                     VArray (Js.items (st !! "messages"%string)
                               ++ Js.items (Some v))]> st) store)
      as (st' & Hall & Hitems).
    exists st'. split; [exact Hall|].
    rewrite Hitems, lookup_insert_eq. cbn [Js.items concat].
    rewrite <- app_assoc. by destruct v.
Qed.

Example messages_updates_sample :
  ∃ st',
    Engine.merge_all GraphAnnotation None
      {[ "messages"%string := VArray [VString "a"] ]} ∅
      [ {[ "messages"%string := VArray [VString "b"; VString "c"] ]};
        {[ "messages"%string := VString "d" ]};
        {[ "messages"%string := VArray [] ]};
        {[ "messages"%string := VArray [VString "e"] ]} ] = Ok (st', ∅)
    ∧ st' !! "messages"%string
      = Some (VArray [VString "a"; VString "b"; VString "c"; VString "d";
                      VString "e"]).
Proof. eexists. split; vm_compute; reflexivity. Qed.

(** ** Runs of the compiled graph *)

Section Runs.

Context (DEFAULT_SYSTEM_RULES : list string) (llm : Collaborators).
Context (config : option RunnableConfig).

Local Abbreviation g := (workflow DEFAULT_SYSTEM_RULES llm).

Lemma next_direct name r :
  edges g !! name = Some (Direct END) →
  Executor.next g config name r = Ok END.
Proof. intros H. unfold Executor.next. by rewrite H. Qed.

Lemma next_callModel r :
  Executor.next g config "callModel" r
  = Ok (shouldCheckContentGeneration (Executor.visible g config r) config).
Proof. reflexivity. Qed.

(** What a node sees of the shared field. *)
Lemma visible_userRules_stored r key v :
  Engine.partitionKey assistant_id config = Some key →
  store r !! key = Some v →
  Executor.visible g config r = <["userRules"%string := v]> (state r).
Proof.
  intros Hkey Hv. rewrite visible_workflow.
  unfold Engine.get. rewrite Hkey. cbn. by rewrite Hv.
Qed.

Lemma visible_other_field r f :
  f ≠ "userRules"%string →
  Executor.visible g config r !! f = state r !! f.
Proof.
  intros Hf. rewrite visible_workflow.
  destruct (Engine.get _ _).
  - by rewrite lookup_insert_ne.
  - by rewrite lookup_delete_ne.
Qed.

(** The [getRules] node: no model call, one replace of [rules]. *)
Lemma exec_getRules r :
  Executor.exec_node g config "getRules" r
  = inr {| state := <["rules"%string :=
                        default VUndefined
                          (Executor.visible g config r !! "userRules"%string)]>
                      (state r);
           store := store r;
           called := called r ++ [];
           trace := trace r ++ ["getRules"%string] |}.
Proof.
  erewrite (exec_node_ok _ _ _ _ getRules);
    [reflexivity | apply workflow_getRules | reflexivity | apply merge_rules].
Qed.

End Runs.

(** C2. Scenario A. Under a configuration with [onlyGetRules] set and a
    partition key under which the store holds a value, the initial router
    returns [getRules], and the run finishes after that single node, with
    the stored value in [rules], the store unchanged and no model call. *)
Theorem onlyGetRules_returns_stored_rules :
  ∀ D llm (fuel : nat) (st0 : State) (store0 : Store)
    (config : option RunnableConfig) (key : string) (v : value),
    config_flag onlyGetRules config = true →
    Engine.partitionKey assistant_id config = Some key →
    store0 !! key = Some v →
    1 ≤ fuel →
    shouldGenerateInsights st0 config = To "getRules"
    ∧ ∃ final r,
        Executor.invoke fuel (buildGraph D llm) st0 store0 config
        = Finished final r
        ∧ final !! "rules"%string = Some v
        ∧ trace r = ["getRules"%string]
        ∧ called r = []
        ∧ store r = store0.
Proof.
  intros D llm fuel st0 store0 config key v Honly Hkey Hv Hfuel.
  split; [by rewrite shouldGenerateInsights_flags, Honly|].
  rewrite invoke_starts, shouldGenerateInsights_flags, Honly.
  destruct fuel as [|fuel]; [lia|].
  rewrite drive_step, exec_getRules.
  rewrite next_direct by apply workflow_getRules.
  rewrite drive_END. eexists _, _. split; [reflexivity|].
  repeat split.
  rewrite (visible_userRules_stored _ _ _ _ key v) by done.
  rewrite (visible_userRules_stored _ _ _ _ key v) by done.
  cbn [state]. rewrite lookup_insert_ne by done.
  by rewrite !lookup_insert_eq.
Qed.

Lemma onlyGetRules_returns_stored_rules_witness :
  shouldGenerateInsights ∅ (Sample.config_with None (Some true)) = To "getRules"
  ∧ ∃ final r,
      Executor.invoke 1 (buildGraph Sample.DEFAULT_SYSTEM_RULES Sample.llm) ∅
        {[ "assistant-1"%string := Sample.stored_rules ]}
        (Sample.config_with None (Some true))
      = Finished final r
      ∧ final !! "rules"%string = Some Sample.stored_rules
      ∧ trace r = ["getRules"%string]
      ∧ called r = []
      ∧ store r = {[ "assistant-1"%string := Sample.stored_rules ]}.
Proof.
  apply (onlyGetRules_returns_stored_rules Sample.DEFAULT_SYSTEM_RULES
           Sample.llm 1 ∅ {[ "assistant-1"%string := Sample.stored_rules ]}
           (Sample.config_with None (Some true)) "assistant-1"
           Sample.stored_rules);
    [reflexivity | reflexivity | reflexivity | lia].
Defined.

Section MoreRuns.

Context (DEFAULT_SYSTEM_RULES : list string) (llm : Collaborators).
Context (config : option RunnableConfig).

Local Abbreviation g := (workflow DEFAULT_SYSTEM_RULES llm).

(** [generateInsights] never gets its update merged: either the node throws
    or the update is rejected for its undeclared field. *)
Lemma exec_generateInsights r :
  ∃ e,
    Executor.exec_node g config "generateInsights" r
    = inl (e, {| state := state r; store := store r;
                 called := called r
                   ++ calls (generateInsights DEFAULT_SYSTEM_RULES llm
                               (Executor.visible g config r) config);
                 trace := trace r ++ ["generateInsights"%string] |})
    ∧ ∀ upd,
        outcome (generateInsights DEFAULT_SYSTEM_RULES llm
                   (Executor.visible g config r) config) = Ok upd →
        e = UnknownFieldError ["userAcceptedText"%string].
Proof.
  destruct (outcome (generateInsights DEFAULT_SYSTEM_RULES llm
                       (Executor.visible g config r) config))
    as [upd|e] eqn:Hout.
  - exists (UnknownFieldError ["userAcceptedText"%string]). split; [|done].
    apply (exec_node_rejected _ _ _ _ _ upd); [apply workflow_generateInsights|done|].
    apply generateInsights_outcome in Hout as [result ->].
    apply merge_undeclared, generateInsights_return_undeclared.
  - exists e. split; [|done].
    by apply exec_node_throws; [apply workflow_generateInsights|].
Qed.

(** [callModel], when its update is merged, has appended the response. *)
Lemma exec_callModel_merged r r' :
  Executor.exec_node g config "callModel" r = inr r' →
  ∃ response,
    r' = {| state := <["messages"%string :=
                         VArray (Js.items (state r !! "messages"%string)
                                   ++ [VMessage response])]> (state r);
            store := store r;
            called := called r
              ++ calls (callModel DEFAULT_SYSTEM_RULES llm
                          (Executor.visible g config r) config);
            trace := trace r ++ ["callModel"%string] |}.
Proof.
  destruct (outcome (callModel DEFAULT_SYSTEM_RULES llm
                       (Executor.visible g config r) config))
    as [upd|e] eqn:Hout.
  - destruct (callModel_outcome _ _ _ _ _ Hout) as [response ->].
    erewrite (exec_node_ok _ _ _ _ (callModel DEFAULT_SYSTEM_RULES llm));
      [|apply workflow_callModel|exact Hout|apply merge_messages].
    intros [= <-]. by exists response.
  - by erewrite exec_node_throws; [|apply workflow_callModel|exact Hout].
Qed.

End MoreRuns.

(** The engine does forward a write to the shared field: after merging an
    update of [userRules] alone, the store holds the value under the
    partition key and the field reads as that value. *)
Lemma shared_write_is_read config (st : State) (store : Store) key v :
  Engine.partitionKey assistant_id config = Some key →
  ∃ st' store',
    Engine.merge GraphAnnotation config st store {[ "userRules"%string := v ]}
    = Ok (st', store')
    ∧ Engine.get store' (Some key) = Some v
    ∧ Engine.view GraphAnnotation config st' store' !! "userRules"%string
      = Some v.
Proof.
  intros Hkey. eexists _, _. split; [by apply merge_userRules|].
  rewrite view_GraphAnnotation, Hkey. cbn.
  by rewrite !lookup_insert_eq.
Qed.

(** C4. Scenario C. Under a configuration whose flags [hasAcceptedText] and
    [onlyGetRules] are both false the initial router returns [callModel];
    on a state whose [contentGenerated] is false the router after
    [callModel] returns [wasContentGenerated], not END; and the executor
    evaluates that router on the state into which the update of [callModel]
    has been merged, the one holding the appended response. *)
Theorem default_run_checks_content_generation :
  (∀ (st : State) (config : option RunnableConfig),
      config_flag hasAcceptedText config = false →
      config_flag onlyGetRules config = false →
      shouldGenerateInsights st config = To "callModel")
  ∧ (∀ (st : State) (config : option RunnableConfig),
        st !! "contentGenerated"%string = Some (VBool false) →
        shouldCheckContentGeneration st config = To "wasContentGenerated")
  ∧ (∀ D llm (fuel : nat) (config : option RunnableConfig) (r r' : Run),
        Executor.exec_node (workflow D llm) config "callModel" r = inr r' →
        (∃ response,
            state r' !! "messages"%string
            = Some (VArray (Js.items (state r !! "messages"%string)
                              ++ [VMessage response])))
        ∧ Executor.drive (S fuel) (workflow D llm) config (To "callModel") r
          = Executor.drive fuel (workflow D llm) config
              (shouldCheckContentGeneration
                 (Executor.visible (workflow D llm) config r') config) r'
        ∧ (state r' !! "contentGenerated"%string = Some (VBool false) →
           Executor.drive (S fuel) (workflow D llm) config (To "callModel") r
           = Executor.drive fuel (workflow D llm) config
               (To "wasContentGenerated") r')).
Proof.
  split; [|split].
  - intros st config Ha Ho.
    by rewrite shouldGenerateInsights_flags, Ha, Ho.
  - intros st config Hc. unfold shouldCheckContentGeneration. by rewrite Hc.
  - intros D llm fuel config r r' Hexec.
    assert (Executor.drive (S fuel) (workflow D llm) config (To "callModel") r
            = Executor.drive fuel (workflow D llm) config
                (shouldCheckContentGeneration
                   (Executor.visible (workflow D llm) config r') config) r')
      as Hdrive by (by rewrite drive_step, Hexec).
    split; [|split; [exact Hdrive|]].
    + destruct (exec_callModel_merged _ _ _ _ _ Hexec) as [response ->].
      exists response. cbn [state]. by rewrite lookup_insert_eq.
    + intros Hc. rewrite Hdrive. unfold shouldCheckContentGeneration.
      by rewrite visible_other_field, Hc.
Qed.

Lemma default_run_checks_content_generation_witness :
  shouldGenerateInsights ∅ (Sample.config_with (Some false) (Some false))
    = To "callModel"
  ∧ shouldCheckContentGeneration {[ "contentGenerated"%string := VBool false ]}
      None = To "wasContentGenerated"
  ∧ ∃ r',
      Executor.exec_node (workflow Sample.DEFAULT_SYSTEM_RULES Sample.llm)
        (Sample.config_with (Some false) (Some false)) "callModel"
        (Executor.initial {[ "contentGenerated"%string := VBool false ]} ∅)
      = inr r'
      ∧ state r' !! "contentGenerated"%string = Some (VBool false)
      ∧ Executor.drive 2 (workflow Sample.DEFAULT_SYSTEM_RULES Sample.llm)
          (Sample.config_with (Some false) (Some false)) (To "callModel")
          (Executor.initial {[ "contentGenerated"%string := VBool false ]} ∅)
        = Executor.drive 1 (workflow Sample.DEFAULT_SYSTEM_RULES Sample.llm)
            (Sample.config_with (Some false) (Some false))
            (To "wasContentGenerated") r'.
Proof.
  destruct default_run_checks_content_generation as (Hfirst & Hcheck & Hpost).
  split; [apply Hfirst; reflexivity|].
  split; [apply Hcheck; reflexivity|].
  eexists. split; [vm_compute; reflexivity|].
  split; [vm_compute; reflexivity|].
  apply Hpost; vm_compute; reflexivity.
Defined.

(** The router after a node reads what the node wrote: a node that sets
    [contentGenerated] ends the run at once, although the state it was given
    would have routed to [wasContentGenerated]. *)
Example router_reads_post_merge_state :
  let marker : NodeFn :=
    λ _ _, mret {[ "contentGenerated"%string := VBool true ]} in
  let g := newStateGraph GraphAnnotation
           |> addNode "marker" marker
           |> addConditionalEdges START (λ _ _, To "marker")
           |> addConditionalEdges (From "marker") shouldCheckContentGeneration in
  shouldCheckContentGeneration
    (Executor.visible g None
       (Executor.initial {[ "contentGenerated"%string := VBool false ]} ∅))
    None = To "wasContentGenerated"
  ∧ ∃ final r,
      Executor.run 1 g {[ "contentGenerated"%string := VBool false ]} ∅ None
      = Finished final r
      ∧ trace r = ["marker"%string].
Proof. split; [reflexivity|]. eexists _, _. split; vm_compute; reflexivity. Qed.

(** Close a goal about a terminated outcome from the trace equations at
    hand. *)
Ltac settle :=
  cbn [run_of terminated];
  repeat match goal with H : trace _ = _ |- _ => rewrite H; clear H end;
  cbn [trace Executor.initial app];
  split; [reflexivity | repeat constructor].

(** C9. Every run of the compiled graph terminates within two node
    executions: with fuel for two nodes the run reaches END or is aborted,
    never runs out, and its trace is one of [getRules], [generateInsights],
    [callModel] or [callModel; wasContentGenerated]. The topology has no
    cycle: [getRules], [generateInsights] and [wasContentGenerated] each
    lead to END, and the router after [callModel] returns END or
    [wasContentGenerated]. *)
Theorem every_run_terminates_within_two_nodes :
  ∀ D llm (fuel : nat) (st0 : State) (store0 : Store)
    (config : option RunnableConfig),
    2 ≤ fuel →
    let o := Executor.invoke fuel (buildGraph D llm) st0 store0 config in
    terminated o = true
    ∧ length (trace (run_of o)) ≤ 2
    ∧ trace (run_of o) ∈
        [ ["getRules"]; ["generateInsights"]; ["callModel"];
          ["callModel"; "wasContentGenerated"] ]%string
    ∧ edges (workflow D llm) !! "getRules"%string = Some (Direct END)
    ∧ edges (workflow D llm) !! "generateInsights"%string = Some (Direct END)
    ∧ edges (workflow D llm) !! "wasContentGenerated"%string = Some (Direct END)
    ∧ edges (workflow D llm) !! "callModel"%string
      = Some (Conditional shouldCheckContentGeneration)
    ∧ ∀ st c, shouldCheckContentGeneration st c = END
              ∨ shouldCheckContentGeneration st c = To "wasContentGenerated".
Proof.
  intros D llm fuel st0 store0 config Hfuel o.
  assert (terminated o = true
          ∧ trace (run_of o) ∈
              [ ["getRules"]; ["generateInsights"]; ["callModel"];
                ["callModel"; "wasContentGenerated"] ]%string) as [Hterm Htrace].
  { subst o. rewrite invoke_starts, shouldGenerateInsights_flags.
    destruct fuel as [|[|fuel]]; [lia|lia|].
    destruct (config_flag onlyGetRules config).
    { rewrite drive_step, exec_getRules.
      rewrite next_direct by apply workflow_getRules.
      rewrite drive_END. settle. }
    destruct (config_flag hasAcceptedText config).
    { rewrite drive_step.
      destruct (exec_generateInsights D llm config (Executor.initial st0 store0))
        as (e & -> & _).
      settle. }
    rewrite drive_step.
    pose proof (exec_node_registered (workflow D llm) config "callModel"
                  (Executor.initial st0 store0) _
                  (proj1 (workflow_callModel D llm))) as Hone.
    destruct (Executor.exec_node _ _ "callModel" _) as [[e r1]|r1].
    { destruct Hone as (Hone & _). settle. }
    rewrite next_callModel.
    destruct (shouldCheckContentGeneration_targets
                (Executor.visible (workflow D llm) config r1) config) as [->| ->].
    { rewrite drive_END. settle. }
    rewrite drive_step.
    pose proof (exec_node_registered (workflow D llm) config
                  "wasContentGenerated" r1 _
                  (proj1 (workflow_wasContentGenerated D llm))) as Htwo.
    destruct (Executor.exec_node _ _ "wasContentGenerated" _) as [[e r2]|r2].
    { destruct Htwo as (Htwo & _). settle. }
    rewrite next_direct by apply workflow_wasContentGenerated.
    rewrite drive_END. settle. }
  split; [exact Hterm|]. split.
  { revert Htrace. generalize (trace (run_of o)). intros t Ht.
    repeat (apply elem_of_cons in Ht as [->|Ht]; [cbn [length]; lia|]).
    apply elem_of_nil in Ht. destruct Ht. }
  split; [exact Htrace|].
  repeat (split; [reflexivity|]).
  apply shouldCheckContentGeneration_targets.
Qed.

Lemma every_run_terminates_within_two_nodes_witness :
  let o := Executor.invoke 2 (buildGraph Sample.DEFAULT_SYSTEM_RULES Sample.llm)
             {[ "messages"%string := VArray [Sample.hello] ]} ∅
             (Sample.config_with None None) in
  terminated o = true
  ∧ length (trace (run_of o)) ≤ 2
  ∧ trace (run_of o) = ["callModel"; "wasContentGenerated"]%string.
Proof.
  destruct (every_run_terminates_within_two_nodes Sample.DEFAULT_SYSTEM_RULES
              Sample.llm 2 {[ "messages"%string := VArray [Sample.hello] ]} ∅
              (Sample.config_with None None)) as (Hterm & Hlen & _); [lia|].
  split; [exact Hterm|]. split; [exact Hlen|].
  vm_compute. reflexivity.
Defined.

(** * Further properties *)

(** ** Replacement in plain text *)

Section TextFacts.

Implicit Types (a b s t pat rep : string) (c : ascii).

Lemma append_cons c a b : String c a +:+ b = String c (a +:+ b).
Proof. reflexivity. Qed.

Lemma has_char_app c a b :
  Text.has_char c (a +:+ b) = Text.has_char c a || Text.has_char c b.
Proof.
  induction a as [|d a IH]; [reflexivity|].
  change (String d a +:+ b) with (String d (a +:+ b)).
  cbn [Text.has_char]. by rewrite IH, orb_assoc.
Qed.

Lemma has_char_cat c segments :
  forallb (λ s, negb (Text.has_char c s)) segments = true →
  Text.has_char c (Text.cat segments) = false.
Proof.
  induction segments as [|s rest IH]; [reflexivity|].
  cbn [forallb Text.cat]. intros [Hs Hrest]%andb_true_iff.
  rewrite has_char_app, (IH Hrest). by destruct (Text.has_char c s).
Qed.

Lemma has_char_join c sep (xs : list string) :
  Text.has_char c sep = false →
  forallb (λ s, negb (Text.has_char c s)) xs = true →
  Text.has_char c (JsString.join sep xs) = false.
Proof.
  intros Hsep. unfold JsString.join.
  induction xs as [|x [|y xs] IH]; [reflexivity| |].
  - cbn. by intros [->%negb_true_iff _]%andb_true_iff.
  - intros [Hx Hrest]%andb_true_iff.
    change (String.concat sep (x :: y :: xs))
      with (x +:+ sep +:+ String.concat sep (y :: xs)).
    rewrite !has_char_app, Hsep, (IH Hrest).
    by apply negb_true_iff in Hx as ->.
Qed.

Lemma getSubstitution_plain matched str pos t :
  Text.has_char "$" t = false →
  JsString.getSubstitution matched str pos t = t.
Proof.
  induction t as [|c t IH]; [reflexivity|].
  cbn [Text.has_char JsString.getSubstitution].
  intros [Hc Ht]%orb_false_iff.
  rewrite Ascii.eqb_sym, Hc. by rewrite IH.
Qed.

Lemma startsWith_self_app pat b : JsString.startsWith pat (pat +:+ b) = true.
Proof.
  induction pat as [|c pat IH]; [reflexivity|].
  change (String c pat +:+ b) with (String c (pat +:+ b)).
  cbn [JsString.startsWith]. by rewrite Ascii.eqb_refl.
Qed.

Lemma startsWith_app pat a b :
  JsString.startsWith pat a = true → JsString.startsWith pat (a +:+ b) = true.
Proof.
  revert a. induction pat as [|c pat IH]; intros [|d a]; try done.
  change (String d a +:+ b) with (String d (a +:+ b)).
  cbn [JsString.startsWith]. destruct (Ascii.eqb c d); [apply IH|done].
Qed.

(** A mismatch within the text is not mended by what follows the text. *)
Lemma startsWith_app_false pat a b :
  JsString.startsWith pat a = false →
  String.length pat ≤ String.length a →
  JsString.startsWith pat (a +:+ b) = false.
Proof.
  revert a. induction pat as [|c pat IH]; intros [|d a]; try done.
  - cbn. lia.
  - change (String d a +:+ b) with (String d (a +:+ b)).
    cbn [JsString.startsWith String.length].
    destruct (Ascii.eqb c d); [|done]. intros H Hlen. apply IH; [done|lia].
Qed.

Lemma startsWith_length pat a :
  JsString.startsWith pat a = true → String.length pat ≤ String.length a.
Proof.
  revert a. induction pat as [|c pat IH]; intros [|d a]; cbn; try done; try lia.
  destruct (Ascii.eqb c d); [|done]. intros H%IH. lia.
Qed.

Lemma indexOf_unfold pat s :
  JsString.indexOf pat s
  = if JsString.startsWith pat s then Some 0
    else match s with
         | EmptyString => None
         | String _ t => S <$> JsString.indexOf pat t
         end.
Proof. by destruct s. Qed.

Lemma indexOf_bound pat a k :
  JsString.indexOf pat a = Some k → k + String.length pat ≤ String.length a.
Proof.
  revert k. induction a as [|d a IH]; intros k; rewrite indexOf_unfold.
  - destruct (JsString.startsWith pat "") eqn:Hs; [|done].
    intros [= <-]. by apply startsWith_length in Hs.
  - destruct (JsString.startsWith pat (String d a)) eqn:Hs.
    + intros [= <-]. by apply startsWith_length in Hs.
    + destruct (JsString.indexOf pat a) as [k'|]; [|done].
      intros [= <-]. specialize (IH k' eq_refl). cbn. lia.
Qed.

(** An occurrence found in a text is still the first one when more text
    follows. *)
Lemma indexOf_app_found pat a b k :
  JsString.indexOf pat a = Some k → JsString.indexOf pat (a +:+ b) = Some k.
Proof.
  revert k. induction a as [|d a IH]; intros k; rewrite indexOf_unfold.
  - destruct (JsString.startsWith pat "") eqn:Hs; [|done].
    intros [= <-]. rewrite indexOf_unfold.
    by rewrite (startsWith_app _ _ _ Hs).
  - destruct (JsString.startsWith pat (String d a)) eqn:Hs.
    + intros [= <-]. rewrite indexOf_unfold.
      by rewrite (startsWith_app _ _ _ Hs).
    + destruct (JsString.indexOf pat a) as [k'|] eqn:Hk; [|done].
      intros [= <-]. rewrite indexOf_unfold.
      rewrite startsWith_app_false; [|done|].
      * change (String d a +:+ b) with (String d (a +:+ b)). cbv beta iota.
        by rewrite (IH k' eq_refl).
      * apply indexOf_bound in Hk. cbn. lia.
Qed.

(** A pattern is not found in text that lacks its first character. *)
Lemma indexOf_skip c p a s :
  Text.has_char c a = false →
  JsString.indexOf (String c p) (a +:+ s)
  = (λ k, String.length a + k) <$> JsString.indexOf (String c p) s.
Proof.
  induction a as [|d a IH]; intros Ha.
  - change (EmptyString +:+ s) with s.
    by destruct (JsString.indexOf (String c p) s).
  - cbn [Text.has_char] in Ha. apply orb_false_iff in Ha as [Hd Ha].
    change (String d a +:+ s) with (String d (a +:+ s)).
    rewrite indexOf_unfold. cbn [JsString.startsWith]. rewrite Hd.
    cbv beta iota. rewrite (IH Ha).
    by destruct (JsString.indexOf (String c p) s).
Qed.

Lemma take_app a s k :
  JsString.take (String.length a + k) (a +:+ s) = a +:+ JsString.take k s.
Proof.
  induction a as [|d a IH]; [reflexivity|].
  rewrite append_cons. cbn [String.length Nat.add JsString.take].
  by rewrite IH.
Qed.

Lemma drop_app a s k :
  JsString.drop (String.length a + k) (a +:+ s) = JsString.drop k s.
Proof.
  induction a as [|d a IH]; [reflexivity|].
  rewrite append_cons. cbn [String.length Nat.add JsString.drop].
  by rewrite IH.
Qed.

Lemma take_app_l a b k :
  k ≤ String.length a → JsString.take k (a +:+ b) = JsString.take k a.
Proof.
  revert k. induction a as [|d a IH]; intros [|k];
    rewrite ?append_cons; cbn [String.length JsString.take]; intros Hk.
  - by destruct b.
  - lia.
  - reflexivity.
  - by rewrite IH by lia.
Qed.

Lemma drop_app_l a b k :
  k ≤ String.length a → JsString.drop k (a +:+ b) = JsString.drop k a +:+ b.
Proof.
  revert k. induction a as [|d a IH]; intros [|k];
    rewrite ?append_cons; cbn [String.length JsString.drop]; intros Hk.
  - reflexivity.
  - lia.
  - reflexivity.
  - by rewrite IH by lia.
Qed.

Lemma app_assoc_string a b s : (a +:+ b) +:+ s = a +:+ (b +:+ s).
Proof.
  induction a as [|d a IH]; [reflexivity|].
  by rewrite !append_cons, IH.
Qed.

(** With no dollar sign in the replacement, [replace] puts the replacement
    itself in the place of the first occurrence. *)
Lemma replace_plain s pat rep :
  Text.has_char "$" rep = false →
  JsString.replace s pat rep
  = match JsString.indexOf pat s with
    | None => s
    | Some k =>
        JsString.take k s +:+ rep +:+ JsString.drop (k + String.length pat) s
    end.
Proof.
  intros Hrep. unfold JsString.replace.
  destruct (JsString.indexOf pat s); [|done].
  by rewrite getSubstitution_plain.
Qed.

(** Text without the first character of the pattern is passed over. *)
Lemma replace_skip c p a s rep :
  Text.has_char c a = false →
  Text.has_char "$" rep = false →
  JsString.replace (a +:+ s) (String c p) rep
  = a +:+ JsString.replace s (String c p) rep.
Proof.
  intros Ha Hrep. rewrite !replace_plain by done.
  rewrite indexOf_skip by done.
  destruct (JsString.indexOf (String c p) s) as [k|]; [|done].
  cbn [fmap option_fmap option_map].
  rewrite take_app, <- Nat.add_assoc, drop_app.
  by rewrite app_assoc_string.
Qed.

(** An occurrence in the text on the left is the one replaced. *)
Lemma replace_found_l a b pat rep k :
  JsString.indexOf pat a = Some k →
  Text.has_char "$" rep = false →
  JsString.replace (a +:+ b) pat rep
  = JsString.take k a +:+ rep
      +:+ JsString.drop (k + String.length pat) a +:+ b.
Proof.
  intros Hk Hrep. rewrite replace_plain by done.
  rewrite (indexOf_app_found _ _ _ _ Hk).
  pose proof (indexOf_bound _ _ _ Hk).
  rewrite take_app_l by lia. by rewrite drop_app_l by lia.
Qed.

End TextFacts.

(** ** The prompts on plain text *)

Lemma rules_guard_style v :
  Js.truthy v && Js.has_length (Js.get_styleRules v)
  = Js.has_length (Js.get_styleRules v).
Proof. destruct v as [[]|]; cbn; by rewrite ?andb_false_r. Qed.

Lemma rules_guard_content v :
  Js.truthy v && Js.has_length (Js.get_contentRules v)
  = Js.has_length (Js.get_contentRules v).
Proof. destruct v as [[]|]; cbn; by rewrite ?andb_false_r. Qed.

Lemma or_else_rulesText rules :
  Js.or_else
    (if Js.has_length rules
     then Some ("- " +:+ JsString.join (nl +:+ " - ") (default [] rules))
     else None)
    DEFAULT_RULES_STRING
  = Expected.rulesText rules.
Proof. unfold Expected.rulesText. by destruct (Js.has_length rules). Qed.

Lemma truthy_str_rules rules :
  Js.truthy_str
    (if Js.has_length rules
     then Some ("- " +:+ JsString.join (nl +:+ " - ") (default [] rules))
     else None)
  = Js.has_length rules.
Proof. by destruct (Js.has_length rules). Qed.

Lemma plain_split s :
  Text.plain s = true ↔
  Text.has_char "{" s = false ∧ Text.has_char "$" s = false.
Proof.
  unfold Text.plain. rewrite andb_true_iff, !negb_true_iff. tauto.
Qed.

Lemma forallb_plain_char c (xs : list string) :
  (c = "{" ∨ c = "$")%char →
  forallb Text.plain xs = true →
  forallb (λ s, negb (Text.has_char c s)) xs = true.
Proof.
  intros Hc. induction xs as [|x xs IH]; [done|].
  cbn [forallb]. intros [Hx Hxs]%andb_true_iff.
  rewrite (IH Hxs), andb_true_r.
  apply plain_split in Hx as [Hb Hd].
  by destruct Hc as [-> | ->]; rewrite ?Hb, ?Hd.
Qed.

(** The rules shown in a prompt are plain when each rule is. *)
Lemma plain_rulesText rules :
  forallb Text.plain (default [] rules) = true →
  Text.plain (Expected.rulesText rules) = true.
Proof.
  intros Hrules. unfold Expected.rulesText.
  destruct (Js.has_length rules); [|reflexivity].
  apply plain_split. split.
  - rewrite has_char_app. cbn [orb].
    change (Text.has_char "{" "- ") with false. cbn [orb].
    apply has_char_join; [reflexivity|].
    apply forallb_plain_char; auto.
  - rewrite has_char_app.
    change (Text.has_char "$" "- ") with false. cbn [orb].
    apply has_char_join; [reflexivity|].
    apply forallb_plain_char; auto.
Qed.

(** The four replacements of [callModel], on plain text. *)
Lemma systemPrompt_filled sys st ct :
  Text.plain sys = true →
  Text.plain st = true →
  Text.has_char "$" ct = false →
  JsString.replace
    (JsString.replace
       (JsString.replace
          (JsString.replace SYSTEM_PROMPT "{systemRules}" sys)
          "{rulesPrompt}" RULES_PROMPT)
       "{styleRules}" st)
    "{contentRules}" ct
  = Expected.systemPrompt sys (Expected.rulesSection st ct).
Proof.
  intros [Hsys_b Hsys_d]%plain_split [Hst_b Hst_d]%plain_split Hct.
  rewrite (replace_plain SYSTEM_PROMPT) by done.
  change (JsString.indexOf "{systemRules}" SYSTEM_PROMPT) with (Some 121).
  cbv beta iota.
  rewrite (replace_skip "{" _ (JsString.take 121 SYSTEM_PROMPT))
    by (vm_compute; reflexivity).
  rewrite (replace_skip "{" _ sys) by (done || (vm_compute; reflexivity)).
  rewrite (replace_plain (JsString.drop _ SYSTEM_PROMPT))
    by (vm_compute; reflexivity).
  match goal with |- context [JsString.indexOf ?p ?s] =>
    let r := eval vm_compute in (JsString.indexOf p s) in
    change (JsString.indexOf p s) with r end.
  cbv beta iota.
  rewrite (replace_skip "{" _ (JsString.take 121 SYSTEM_PROMPT))
    by (done || (vm_compute; reflexivity)).
  rewrite (replace_skip "{" _ sys) by done.
  rewrite (replace_skip "{" _ (JsString.take _ (JsString.drop _ SYSTEM_PROMPT)))
    by (done || (vm_compute; reflexivity)).
  rewrite (replace_found_l RULES_PROMPT _ "{styleRules}" st 140)
    by (done || (vm_compute; reflexivity)).
  rewrite (replace_skip "{" _ (JsString.take 121 SYSTEM_PROMPT))
    by (done || (vm_compute; reflexivity)).
  rewrite (replace_skip "{" _ sys) by done.
  rewrite (replace_skip "{" _ (JsString.take _ (JsString.drop _ SYSTEM_PROMPT)))
    by (done || (vm_compute; reflexivity)).
  rewrite (replace_skip "{" _ (JsString.take 140 RULES_PROMPT))
    by (done || (vm_compute; reflexivity)).
  rewrite (replace_skip "{" _ st) by done.
  rewrite (replace_found_l (JsString.drop _ RULES_PROMPT) _ "{contentRules}" ct 33)
    by (done || (vm_compute; reflexivity)).
  vm_compute. reflexivity.
Qed.

(** The four replacements of [generateInsights], on plain text. *)
Lemma insightsPrompt_filled sys st ct conv :
  Text.has_char "$" sys = false →
  Text.plain st = true →
  Text.plain ct = true →
  Text.has_char "$" conv = false →
  JsString.replace
    (JsString.replace
       (JsString.replace
          (JsString.replace generateInsights_systemPrompt "{systemRules}" sys)
          "{styleRules}" st)
       "{contentRules}" ct)
    "{conversation}" conv
  = Expected.insightsPrompt st ct conv sys.
Proof.
  intros Hsys [Hst_b Hst_d]%plain_split [Hct_b Hct_d]%plain_split Hconv.
  rewrite (replace_plain generateInsights_systemPrompt) by done.
  change (JsString.indexOf "{systemRules}" generateInsights_systemPrompt)
    with (Some 2379).
  cbv beta iota.
  rewrite (replace_found_l (JsString.take 2379 _) _ "{styleRules}" st 2172)
    by (done || (vm_compute; reflexivity)).
  rewrite (replace_skip "{" _ (JsString.take 2172 _))
    by (done || (vm_compute; reflexivity)).
  rewrite (replace_skip "{" _ st) by done.
  rewrite (replace_found_l (JsString.drop _ (JsString.take 2379 _)) _
             "{contentRules}" ct 33)
    by (done || (vm_compute; reflexivity)).
  rewrite (replace_skip "{" _ (JsString.take 2172 _))
    by (done || (vm_compute; reflexivity)).
  rewrite (replace_skip "{" _ st) by done.
  rewrite (replace_skip "{" _ (JsString.take 33 _))
    by (done || (vm_compute; reflexivity)).
  rewrite (replace_skip "{" _ ct) by done.
  rewrite (replace_found_l (JsString.drop _ (JsString.drop _ _)) _
             "{conversation}" conv 61)
    by (done || (vm_compute; reflexivity)).
  vm_compute. reflexivity.
Qed.

(** The replacement of [wasContentGenerated], on text without dollar sign. *)
Lemma contentCheckPrompt_filled conv :
  Text.has_char "$" conv = false →
  JsString.replace wasContentGenerated_prompt "{conversation}" conv
  = Expected.contentCheckPrompt conv.
Proof.
  intros Hconv. rewrite replace_plain by done.
  change (JsString.indexOf "{conversation}" wasContentGenerated_prompt)
    with (Some 314).
  vm_compute. reflexivity.
Qed.

(** ** The conversation text *)

Lemma mapR_all_ok {A B} (f : A → result B) (g : A → B) (l : list A) :
  Forall (λ x, f x = Ok (g x)) l → mapR f l = Ok (g <$> l).
Proof.
  induction 1 as [|x l Hx _ IH]; [reflexivity|].
  cbn [mapR]. rewrite Hx. cbn. rewrite IH. reflexivity.
Qed.

(** On a history without [undefined] items [_prepareConversation] returns
    the conversation text. *)
Lemma prepareConversation_defined (messages : list value) :
  VUndefined ∉ messages →
  _prepareConversation messages = Ok (Expected.conversation messages).
Proof.
  intros Hdef. unfold _prepareConversation, Expected.conversation.
  erewrite (mapR_all_ok _ (λ p, Expected.blockOf p.1 p.2)).
  - cbn [mbind result_bind]. by rewrite fmap_imap.
  - apply Forall_forall. intros [i v] Hin.
    assert (v ∈ messages) as Hv.
    { apply list_elem_of_lookup in Hin as [j Hj].
      rewrite list_lookup_imap in Hj.
      destruct (messages !! j) as [w|] eqn:Hw; [|done].
      injection Hj as _ <-. by eapply list_elem_of_lookup_2. }
    destruct v as [| | |m| |]; try reflexivity.
    + done.
    + cbn. by destruct (content m).
Qed.

Lemma has_char_dollar_uint d :
  Text.has_char "$" (NilEmpty.string_of_uint d) = false.
Proof. induction d; cbn; auto. Qed.

Lemma blockOf_quiet i v :
  Expected.quiet_message v = true →
  Text.has_char "$" (Expected.blockOf i v) = false.
Proof.
  destruct v as [| | |m| |]; try done.
  unfold Expected.quiet_message, Expected.blockOf, Expected.block.
  destruct (content m) as [text|]; [|done].
  intros [Htype Htext]%andb_true_iff.
  apply negb_true_iff in Htype, Htext.
  rewrite !has_char_app, Htype, Htext.
  unfold JsString.ofNat. by rewrite has_char_dollar_uint.
Qed.

Lemma quiet_defined (messages : list value) :
  forallb Expected.quiet_message messages = true → VUndefined ∉ messages.
Proof.
  intros Hq Hin. rewrite forallb_forall in Hq.
  by specialize (Hq VUndefined (proj1 (list_elem_of_In _ _) Hin)).
Qed.

Lemma conversation_quiet (messages : list value) :
  forallb Expected.quiet_message messages = true →
  Text.has_char "$" (Expected.conversation messages) = false.
Proof.
  intros Hq. unfold Expected.conversation.
  apply has_char_join; [reflexivity|].
  apply forallb_forall. intros s Hin%list_elem_of_In.
  apply list_elem_of_lookup in Hin as [i Hi].
  rewrite list_lookup_imap in Hi.
  destruct (messages !! i) as [v|] eqn:Hv; [|done].
  injection Hi as <-. apply negb_true_iff, blockOf_quiet.
  rewrite forallb_forall in Hq. apply Hq, list_elem_of_In.
  by eapply list_elem_of_lookup_2.
Qed.

Lemma includes_app_l (pat a b : string) :
  JsString.includes pat a = true → JsString.includes pat (a +:+ b) = true.
Proof.
  induction a as [|c a IH].
  - change (EmptyString +:+ b) with b. destruct pat; [|done].
    intros _. by destruct b.
  - rewrite append_cons. cbn [JsString.includes].
    intros [H|H]%orb_true_iff.
    + rewrite <- append_cons, (startsWith_app _ _ _ H). done.
    + rewrite (IH H). apply orb_true_r.
Qed.

Lemma includes_self (pat : string) : JsString.includes pat pat = true.
Proof.
  assert (JsString.startsWith pat pat = true) as H.
  { induction pat as [|c pat IH]; [done|].
    cbn. by rewrite Ascii.eqb_refl. }
  destruct pat; cbn [JsString.includes]; by rewrite H.
Qed.

(** Every part of a joined list occurs in the joined text. *)
Lemma includes_join sep (parts : list string) i p :
  parts !! i = Some p → JsString.includes p (JsString.join sep parts) = true.
Proof.
  unfold JsString.join. revert i.
  induction parts as [|x [|y parts] IH]; intros [|i] Hi; try done.
  - injection Hi as ->. apply includes_self.
  - injection Hi as ->.
    change (String.concat sep (p :: y :: parts))
      with (p +:+ sep +:+ String.concat sep (y :: parts)).
    apply includes_app_l, includes_self.
  - change (String.concat sep (x :: y :: parts))
      with (x +:+ sep +:+ String.concat sep (y :: parts)).
    do 2 apply includes_app_r. by apply (IH i).
Qed.

(** ** What the nodes send *)

(** X1. With at least one non-empty list of rules, [callModel] sends the
    system prompt with every placeholder filled as intended, provided the
    system rules and the rules are plain text (no brace, no dollar sign):
    the system rules of the configuration or else the default ones, then
    the bullet list of each kind of rules, or the notice that none is set
    for an empty kind; the history follows the system message unchanged. *)
Theorem callModel_sends_filled_prompt :
  ∀ D llm (state : State) (config : option RunnableConfig),
    Js.has_length (Js.get_styleRules (state !! "userRules"%string))
      || Js.has_length (Js.get_contentRules (state !! "userRules"%string))
    = true →
    Text.plain (Expected.systemRulesText D config) = true →
    forallb Text.plain
      (default [] (Js.get_styleRules (state !! "userRules"%string))) = true →
    forallb Text.plain
      (default [] (Js.get_contentRules (state !! "userRules"%string))) = true →
    calls (callModel D llm state config)
    = [ {| model := "claude-3-5-sonnet-20240620"; temperature := 0;
           structuredOutput := None;
           input :=
             RoleContent "system"
               (Expected.systemPrompt (Expected.systemRulesText D config)
                  (Expected.rulesSection
                     (Expected.rulesText
                        (Js.get_styleRules (state !! "userRules"%string)))
                     (Expected.rulesText
                        (Js.get_contentRules (state !! "userRules"%string)))))
               :: (History <$> Js.items (state !! "messages"%string)) |} ].
Proof.
  intros D llm state config Hany Hsys Hstyle Hcontent.
  rewrite callModel_calls.
  assert (callModel_systemPrompt D state config
          = Expected.systemPrompt (Expected.systemRulesText D config)
              (Expected.rulesSection
                 (Expected.rulesText
                    (Js.get_styleRules (state !! "userRules"%string)))
                 (Expected.rulesText
                    (Js.get_contentRules (state !! "userRules"%string)))))
    as ->; [|reflexivity].
  unfold callModel_systemPrompt. cbv zeta.
  rewrite rules_guard_style, rules_guard_content.
  rewrite !truthy_str_rules, !or_else_rulesText, Hany.
  apply systemPrompt_filled; [exact Hsys|by apply plain_rulesText|].
  by apply plain_split, plain_rulesText.
Qed.

Lemma callModel_sends_filled_prompt_witness :
  calls (callModel Sample.DEFAULT_SYSTEM_RULES Sample.llm
           Sample.state_with_rules None)
  = [ {| model := "claude-3-5-sonnet-20240620"; temperature := 0;
         structuredOutput := None;
         input :=
           [ RoleContent "system" (lines [
               "You are a helpful assistant tasked with thoughtfully fulfilling the requests of the user.";
               "";
               "System rules:";
               "";
               "<system_rules>";
               "- Be helpful";
               "- Stay on topic";
               "</system_rules>";
               "";
               "The user has defined two sets of rules. The first set is for style guidelines, and the second set is for content guidelines.";
               "";
               "<style_rules>";
               "- be concise";
               "</style_rules>";
               "";
               "<content_rules>";
               "*no rules have been set yet*";
               "</content_rules>" ]);
             History Sample.hello; History (VMessage Sample.reply) ] |} ].
Proof.
  rewrite (callModel_sends_filled_prompt Sample.DEFAULT_SYSTEM_RULES Sample.llm
             Sample.state_with_rules None);
    [vm_compute; reflexivity | reflexivity..].
Defined.

(** X2. [generateInsights] sends one request, the prompt with its four
    placeholders filled as intended, provided the rules are plain text and
    neither the system rules nor the messages carry a dollar sign: the rules
    of each kind as a bullet list or the notice that none is set, the
    conversation text of the whole history, and the system rules of the
    configuration or else the default ones. *)
Theorem generateInsights_sends_filled_prompt :
  ∀ D llm (state : State) (config : option RunnableConfig),
    forallb Expected.quiet_message (Js.items (state !! "messages"%string))
      = true →
    Text.has_char "$" (Expected.systemRulesText D config) = false →
    forallb Text.plain
      (default [] (Js.get_styleRules (state !! "userRules"%string))) = true →
    forallb Text.plain
      (default [] (Js.get_contentRules (state !! "userRules"%string))) = true →
    calls (generateInsights D llm state config)
    = [ Expected.insightsRequest
          (Expected.insightsPrompt
             (Expected.rulesText
                (Js.get_styleRules (state !! "userRules"%string)))
             (Expected.rulesText
                (Js.get_contentRules (state !! "userRules"%string)))
             (Expected.conversation (Js.items (state !! "messages"%string)))
             (Expected.systemRulesText D config)) ].
Proof.
  intros D llm state config Hquiet Hsys Hstyle Hcontent.
  assert (generateInsights_prompt D state config
          = Ok (Expected.insightsPrompt
                  (Expected.rulesText
                     (Js.get_styleRules (state !! "userRules"%string)))
                  (Expected.rulesText
                     (Js.get_contentRules (state !! "userRules"%string)))
                  (Expected.conversation
                     (Js.items (state !! "messages"%string)))
                  (Expected.systemRulesText D config))) as Hprompt.
  { unfold generateInsights_prompt. cbv zeta.
    rewrite rules_guard_style, rules_guard_content.
    rewrite prepareConversation_defined by by apply quiet_defined.
    cbn [mbind result_bind]. f_equal.
    apply insightsPrompt_filled;
      [exact Hsys | by apply plain_rulesText | by apply plain_rulesText
      | by apply conversation_quiet]. }
  unfold generateInsights. rewrite Hprompt.
  unfold liftR, await, mbind, Comp_bind. cbn [calls outcome app].
  by destruct (structuredUserRules llm _).
Qed.

Lemma generateInsights_sends_filled_prompt_witness :
  ∃ prompt,
    calls (generateInsights Sample.DEFAULT_SYSTEM_RULES Sample.llm
             Sample.state_with_rules None)
    = [Expected.insightsRequest prompt]
    ∧ JsString.includes (lines [
          "<style_rules>";
          "- be concise";
          "</style_rules>";
          "";
          "<content_rules>";
          "*no rules have been set yet*";
          "</content_rules>";
          "";
          "Here is the conversation:";
          "";
          "<conversation>";
          "<human_message index={0}>";
          "Write a tweet.";
          "</human_message>";
          "";
          "<ai_message index={1}>";
          "Here is a draft.";
          "</ai_message>";
          "</conversation>";
          "";
          "And here are the default system rules:";
          "";
          "<system_rules>";
          "- Be helpful";
          "- Stay on topic";
          "</system_rules>" ]) prompt = true.
Proof.
  eexists. split.
  - apply (generateInsights_sends_filled_prompt Sample.DEFAULT_SYSTEM_RULES
             Sample.llm Sample.state_with_rules None); reflexivity.
  - vm_compute. reflexivity.
Defined.

(** X3. On a history without [undefined] items [_prepareConversation]
    returns a text in which every message with string content occurs as a
    block tagged with the message type and with the position of the message
    in the whole history, messages with other content counted. *)
Theorem prepareConversation_shows_every_text_message :
  ∀ messages : list value,
    VUndefined ∉ messages →
    ∃ conv,
      _prepareConversation messages = Ok conv
      ∧ ∀ i m text,
          messages !! i = Some (VMessage m) →
          content m = ContentText text →
          JsString.includes
            ("<" +:+ _getType m +:+ "_message index={" +:+ JsString.ofNat i
               +:+ "}>" +:+ nl +:+ text +:+ nl
               +:+ "</" +:+ _getType m +:+ "_message>") conv = true.
Proof.
  intros messages Hdef. exists (Expected.conversation messages).
  split; [by apply prepareConversation_defined|].
  intros i m text Hi Htext. unfold Expected.conversation.
  apply (includes_join _ _ i).
  rewrite list_lookup_imap, Hi. cbn [fmap option_fmap option_map].
  unfold Expected.blockOf. by rewrite Htext.
Qed.

Lemma prepareConversation_shows_every_text_message_witness :
  ∃ conv,
    _prepareConversation
      [ VMessage {| _getType := "ai"; content := ContentBlocks ["image"%string] |};
        Sample.hello ] = Ok conv
    ∧ JsString.includes
        (lines ["<human_message index={1}>"; "Write a tweet.";
                "</human_message>"]) conv = true.
Proof.
  destruct (prepareConversation_shows_every_text_message
              [ VMessage {| _getType := "ai";
                            content := ContentBlocks ["image"%string] |};
                Sample.hello ]) as (conv & Hconv & Hblocks).
  { intros Hin. apply list_elem_of_In in Hin.
    cbn in Hin. intuition discriminate. }
  exists conv. split; [exact Hconv|].
  exact (Hblocks 1 {| _getType := "human"; content := ContentText "Write a tweet." |}
           "Write a tweet."%string eq_refl eq_refl).
Defined.

(** ** Whole runs *)

Section RunFacts.

Context (DEFAULT_SYSTEM_RULES : list string) (llm : Collaborators).
Context (config : option RunnableConfig).

Local Abbreviation g := (workflow DEFAULT_SYSTEM_RULES llm).

Lemma callModel_run (state : State) :
  callModel DEFAULT_SYSTEM_RULES llm state config
  = {| calls := [Expected.chatRequest DEFAULT_SYSTEM_RULES state config];
       outcome :=
         match chat llm
                 (Expected.chatRequest DEFAULT_SYSTEM_RULES state config) with
         | Ok response =>
             Ok {[ "messages"%string := VArray [VMessage response] ]}
         | Err e => Err e
         end |}.
Proof.
  unfold callModel, await, mbind, Comp_bind, Expected.chatRequest.
  cbn [calls outcome]. by destruct (chat llm _).
Qed.

Lemma exec_callModel_ok r response :
  chat llm (Expected.chatRequest DEFAULT_SYSTEM_RULES
              (Executor.visible g config r) config) = Ok response →
  Executor.exec_node g config "callModel" r
  = inr {| state := <["messages"%string :=
                        VArray (Js.items (state r !! "messages"%string)
                                  ++ [VMessage response])]> (state r);
           store := store r;
           called := called r
             ++ [Expected.chatRequest DEFAULT_SYSTEM_RULES
                   (Executor.visible g config r) config];
           trace := trace r ++ ["callModel"%string] |}.
Proof.
  intros Hchat.
  rewrite (exec_node_ok _ _ _ _ (callModel DEFAULT_SYSTEM_RULES llm)
             {[ "messages"%string := VArray [VMessage response] ]}
             (<["messages"%string :=
                  VArray (Js.items (state r !! "messages"%string)
                            ++ [VMessage response])]> (state r))
             (store r)).
  - by rewrite callModel_run.
  - apply workflow_callModel.
  - by rewrite callModel_run, Hchat.
  - apply merge_messages.
Qed.

Lemma wasContentGenerated_run (state : State) b :
  forallb Expected.quiet_message (Js.items (state !! "messages"%string))
    = true →
  structuredContentGenerated llm
    (Expected.contentCheckRequest
       (Expected.conversation (Js.items (state !! "messages"%string))))
    = Ok b →
  wasContentGenerated llm state config
  = {| calls := [Expected.contentCheckRequest
                   (Expected.conversation
                      (Js.items (state !! "messages"%string)))];
       outcome := Ok {[ "contentGenerated"%string := VBool b ]} |}.
Proof.
  intros Hquiet Hverdict. unfold wasContentGenerated.
  rewrite prepareConversation_defined by by apply quiet_defined.
  cbn [mbind result_bind].
  rewrite contentCheckPrompt_filled by by apply conversation_quiet.
  unfold liftR, await, mbind, Comp_bind. cbn [calls outcome].
  fold (Expected.contentCheckRequest
          (Expected.conversation (Js.items (state !! "messages"%string)))).
  by rewrite Hverdict.
Qed.

Lemma exec_wasContentGenerated_ok r b :
  forallb Expected.quiet_message
    (Js.items (Executor.visible g config r !! "messages"%string)) = true →
  structuredContentGenerated llm
    (Expected.contentCheckRequest
       (Expected.conversation
          (Js.items (Executor.visible g config r !! "messages"%string))))
    = Ok b →
  Executor.exec_node g config "wasContentGenerated" r
  = inr {| state := <["contentGenerated"%string := VBool b]> (state r);
           store := store r;
           called := called r
             ++ [Expected.contentCheckRequest
                   (Expected.conversation
                      (Js.items
                         (Executor.visible g config r !! "messages"%string)))];
           trace := trace r ++ ["wasContentGenerated"%string] |}.
Proof.
  intros Hquiet Hverdict.
  rewrite (exec_node_ok _ _ _ _ (wasContentGenerated llm)
             {[ "contentGenerated"%string := VBool b ]}
             (<["contentGenerated"%string := VBool b]> (state r)) (store r)).
  - by rewrite (wasContentGenerated_run _ b).
  - apply workflow_wasContentGenerated.
  - by rewrite (wasContentGenerated_run _ b).
  - apply merge_contentGenerated.
Qed.

(** Neither node that may follow the initial route to [callModel] touches
    the store. *)
Lemma exec_keeps_store name r :
  name = "callModel"%string ∨ name = "wasContentGenerated"%string
  ∨ name = "getRules"%string →
  match Executor.exec_node g config name r with
  | inl (_, r') | inr r' => store r' = store r
  end.
Proof.
  intros Hname. unfold Executor.exec_node.
  assert (∃ fn, nodes g !! name = Some fn
                ∧ ∀ st upd, outcome (fn st config) = Ok upd →
                    ∃ f v, upd = {[ f := v ]}
                           ∧ (f = "messages" ∨ f = "contentGenerated"
                              ∨ f = "rules")%string)
    as (fn & -> & Hfn).
  { destruct Hname as [->|[->| ->]].
    - eexists. split; [apply workflow_callModel|].
      intros st upd [response ->]%callModel_outcome. eauto 6.
    - eexists. split; [apply workflow_wasContentGenerated|].
      intros st upd [b ->]%wasContentGenerated_outcome. eauto 6.
    - eexists. split; [apply workflow_getRules|].
      intros st upd. rewrite getRules_run. intros [= <-]. eauto 6. }
  cbv zeta.
  destruct (outcome (fn _ config)) as [upd|e] eqn:Hout; [|reflexivity].
  destruct (Hfn _ _ Hout) as (f & v & -> & [->|[->| ->]]).
  - change (schema g) with GraphAnnotation. by rewrite merge_messages.
  - change (schema g) with GraphAnnotation. by rewrite merge_contentGenerated.
  - change (schema g) with GraphAnnotation. by rewrite merge_rules.
Qed.

End RunFacts.

(** X4. A default run on a state whose [contentGenerated] is already true
    stops after [callModel]: when the chat model answers, the run finishes
    with that single model call, the response appended to [messages],
    [contentGenerated] as it was and the store untouched; the check by
    [wasContentGenerated] is not run again. *)
Theorem generated_content_skips_the_check :
  ∀ D llm (fuel : nat) (st0 : State) (store0 : Store)
    (config : option RunnableConfig) (response : BaseMessage),
    config_flag onlyGetRules config = false →
    config_flag hasAcceptedText config = false →
    Js.truthy (st0 !! "contentGenerated"%string) = true →
    chat llm
      (Expected.chatRequest D
         (Executor.visible (workflow D llm) config
            (Executor.initial st0 store0)) config) = Ok response →
    1 ≤ fuel →
    ∃ final r,
      Executor.invoke fuel (buildGraph D llm) st0 store0 config
      = Finished final r
      ∧ trace r = ["callModel"%string]
      ∧ called r
        = [Expected.chatRequest D
             (Executor.visible (workflow D llm) config
                (Executor.initial st0 store0)) config]
      ∧ final !! "messages"%string
        = Some (VArray (Js.items (st0 !! "messages"%string)
                          ++ [VMessage response]))
      ∧ final !! "contentGenerated"%string = st0 !! "contentGenerated"%string
      ∧ store r = store0.
Proof.
  intros D llm fuel st0 store0 config response Honly Haccepted Hdone Hchat
    Hfuel.
  rewrite invoke_starts, shouldGenerateInsights_flags, Honly, Haccepted.
  destruct fuel as [|fuel]; [lia|].
  rewrite drive_step, (exec_callModel_ok _ _ _ _ response Hchat).
  rewrite next_callModel. unfold shouldCheckContentGeneration at 1.
  rewrite visible_other_field by discriminate. cbn [state Executor.initial].
  rewrite lookup_insert_ne by discriminate. rewrite Hdone.
  rewrite drive_END. eexists _, _. split; [reflexivity|].
  split; [reflexivity|]. split; [reflexivity|].
  rewrite !visible_other_field by discriminate. cbn [state].
  rewrite lookup_insert_eq, lookup_insert_ne by discriminate.
  repeat split.
Qed.

Lemma generated_content_skips_the_check_witness :
  ∃ final r,
    Executor.invoke 1 (buildGraph Sample.DEFAULT_SYSTEM_RULES Sample.llm)
      {[ "messages"%string := VArray [Sample.hello];
         "contentGenerated"%string := VBool true ]} ∅
      (Sample.config_with None None)
    = Finished final r
    ∧ trace r = ["callModel"%string]
    ∧ length (called r) = 1
    ∧ final !! "messages"%string
      = Some (VArray [Sample.hello; VMessage Sample.reply])
    ∧ final !! "contentGenerated"%string = Some (VBool true).
Proof.
  destruct (generated_content_skips_the_check Sample.DEFAULT_SYSTEM_RULES
              Sample.llm 1
              {[ "messages"%string := VArray [Sample.hello];
                 "contentGenerated"%string := VBool true ]} ∅
              (Sample.config_with None None) Sample.reply)
    as (final & r & Hrun & Htrace & Hcalled & Hmessages & Hflag & _);
    [reflexivity | reflexivity | reflexivity | reflexivity | lia |].
  exists final, r. split; [exact Hrun|]. split; [exact Htrace|].
  split; [by rewrite Hcalled|]. split; [exact Hmessages|exact Hflag].
Defined.

(** X5. A default run on a state whose [contentGenerated] is not yet true
    runs [callModel] and then [wasContentGenerated]: when both models
    answer, on messages without dollar sign, the run finishes with exactly
    the two model calls in that order, the second asking about the
    conversation that already holds the fresh response; the response is
    appended to [messages], [contentGenerated] becomes the verdict and the
    store is untouched. *)
Theorem default_run_records_the_verdict :
  ∀ D llm (fuel : nat) (st0 : State) (store0 : Store)
    (config : option RunnableConfig) (response : BaseMessage) (verdict : bool),
    config_flag onlyGetRules config = false →
    config_flag hasAcceptedText config = false →
    Js.truthy (st0 !! "contentGenerated"%string) = false →
    chat llm
      (Expected.chatRequest D
         (Executor.visible (workflow D llm) config
            (Executor.initial st0 store0)) config) = Ok response →
    forallb Expected.quiet_message
      (Js.items (st0 !! "messages"%string) ++ [VMessage response]) = true →
    structuredContentGenerated llm
      (Expected.contentCheckRequest
         (Expected.conversation
            (Js.items (st0 !! "messages"%string) ++ [VMessage response])))
      = Ok verdict →
    2 ≤ fuel →
    ∃ final r,
      Executor.invoke fuel (buildGraph D llm) st0 store0 config
      = Finished final r
      ∧ trace r = ["callModel"; "wasContentGenerated"]%string
      ∧ called r
        = [ Expected.chatRequest D
              (Executor.visible (workflow D llm) config
                 (Executor.initial st0 store0)) config;
            Expected.contentCheckRequest
              (Expected.conversation
                 (Js.items (st0 !! "messages"%string)
                    ++ [VMessage response])) ]
      ∧ final !! "messages"%string
        = Some (VArray (Js.items (st0 !! "messages"%string)
                          ++ [VMessage response]))
      ∧ final !! "contentGenerated"%string = Some (VBool verdict)
      ∧ store r = store0.
Proof.
  intros D llm fuel st0 store0 config response verdict Honly Haccepted Hnot
    Hchat Hquiet Hverdict Hfuel.
  rewrite invoke_starts, shouldGenerateInsights_flags, Honly, Haccepted.
  destruct fuel as [|[|fuel]]; [lia|lia|].
  rewrite drive_step, (exec_callModel_ok _ _ _ _ response Hchat).
  rewrite next_callModel. unfold shouldCheckContentGeneration at 1.
  rewrite visible_other_field by discriminate. cbn [state Executor.initial].
  rewrite lookup_insert_ne by discriminate. rewrite Hnot.
  rewrite drive_step.
  match goal with
  | |- context [Executor.exec_node _ _ "wasContentGenerated" ?r1] =>
      assert (Executor.visible (workflow D llm) config r1 !! "messages"%string
              = Some (VArray (Js.items (st0 !! "messages"%string)
                                ++ [VMessage response]))) as Hseen
        by (rewrite visible_other_field by discriminate; cbn [state];
            apply lookup_insert_eq);
      rewrite (exec_wasContentGenerated_ok D llm config r1 verdict)
        by (rewrite Hseen; cbn [Js.items]; assumption);
      rewrite Hseen
  end.
  cbn [Js.items state store called trace Executor.initial app].
  rewrite next_direct by apply workflow_wasContentGenerated.
  rewrite drive_END. eexists _, _. split; [reflexivity|].
  split; [reflexivity|]. split; [reflexivity|].
  rewrite !visible_other_field by discriminate. cbn [state].
  rewrite lookup_insert_eq, lookup_insert_ne by discriminate.
  rewrite lookup_insert_eq. repeat split.
Qed.

Lemma default_run_records_the_verdict_witness :
  ∃ final r,
    Executor.invoke 2 (buildGraph Sample.DEFAULT_SYSTEM_RULES Sample.llm)
      {[ "messages"%string := VArray [Sample.hello] ]} ∅
      (Sample.config_with None None)
    = Finished final r
    ∧ trace r = ["callModel"; "wasContentGenerated"]%string
    ∧ length (called r) = 2
    ∧ final !! "messages"%string
      = Some (VArray [Sample.hello; VMessage Sample.reply])
    ∧ final !! "contentGenerated"%string = Some (VBool false).
Proof.
  destruct (default_run_records_the_verdict Sample.DEFAULT_SYSTEM_RULES
              Sample.llm 2 {[ "messages"%string := VArray [Sample.hello] ]} ∅
              (Sample.config_with None None) Sample.reply false)
    as (final & r & Hrun & Htrace & Hcalled & Hmessages & Hflag & _);
    [reflexivity | reflexivity | reflexivity | reflexivity | reflexivity
    | reflexivity | lia |].
  exists final, r. split; [exact Hrun|]. split; [exact Htrace|].
  split; [by rewrite Hcalled|]. split; [exact Hmessages|exact Hflag].
Defined.

(** X6. Only a run routed to [generateInsights] can change the shared
    store: when [onlyGetRules] is set or [hasAcceptedText] is not, the store
    after the run is the store before it, whatever the models answer,
    however the run ends and however much fuel it has. *)
Theorem runs_without_insights_keep_the_store :
  ∀ D llm (fuel : nat) (st0 : State) (store0 : Store)
    (config : option RunnableConfig),
    config_flag onlyGetRules config = true
    ∨ config_flag hasAcceptedText config = false →
    store (run_of (Executor.invoke fuel (buildGraph D llm) st0 store0 config))
    = store0.
Proof.
  intros D llm fuel st0 store0 config Hflags.
  rewrite invoke_starts, shouldGenerateInsights_flags.
  destruct (config_flag onlyGetRules config).
  { destruct fuel as [|fuel]; [reflexivity|].
    rewrite drive_step, exec_getRules.
    rewrite next_direct by apply workflow_getRules.
    by rewrite drive_END. }
  destruct Hflags as [Honly|Haccepted]; [discriminate|]. rewrite Haccepted.
  destruct fuel as [|fuel]; [reflexivity|].
  rewrite drive_step.
  pose proof (exec_keeps_store D llm config "callModel"
                (Executor.initial st0 store0) (or_introl eq_refl)) as Hone.
  destruct (Executor.exec_node _ _ "callModel" _) as [[e r1]|r1];
    [exact Hone|].
  rewrite next_callModel.
  destruct (shouldCheckContentGeneration_targets
              (Executor.visible (workflow D llm) config r1) config) as [->| ->].
  { rewrite drive_END. exact Hone. }
  destruct fuel as [|fuel]; [exact Hone|].
  rewrite drive_step.
  pose proof (exec_keeps_store D llm config "wasContentGenerated" r1
                (or_intror (or_introl eq_refl))) as Htwo.
  destruct (Executor.exec_node _ _ "wasContentGenerated" _) as [[e r2]|r2].
  { cbn [run_of]. by rewrite Htwo. }
  rewrite next_direct by apply workflow_wasContentGenerated.
  rewrite drive_END. cbn [run_of]. by rewrite Htwo.
Qed.

Lemma runs_without_insights_keep_the_store_witness :
  store (run_of (Executor.invoke 2
                   (buildGraph Sample.DEFAULT_SYSTEM_RULES Sample.llm)
                   {[ "messages"%string := VArray [Sample.hello] ]}
                   {[ "assistant-1"%string := Sample.stored_rules ]}
                   (Sample.config_with None None)))
  = {[ "assistant-1"%string := Sample.stored_rules ]}.
Proof.
  apply runs_without_insights_keep_the_store. right. reflexivity.
Defined.

(** X8. The graph [buildGraph] assembles passes the topology checks, and
    every name a router can return is the name of a node it registered: the
    initial router returns one of the registered nodes and never END, the
    router after [callModel] returns END or a registered node. *)
Theorem routers_return_registered_nodes :
  ∀ D llm,
    buildGraph D llm = Ok (workflow D llm)
    ∧ (∀ (st : State) (config : option RunnableConfig),
          Executor.registered (workflow D llm)
            (shouldGenerateInsights st config) = true
          ∧ shouldGenerateInsights st config ≠ END)
    ∧ (∀ (st : State) (config : option RunnableConfig),
          Executor.registered (workflow D llm)
            (shouldCheckContentGeneration st config) = true).
Proof.
  intros D llm. split; [apply buildGraph_compiles|]. split.
  - intros st config. rewrite shouldGenerateInsights_flags.
    destruct (config_flag onlyGetRules config);
      [|destruct (config_flag hasAcceptedText config)];
      (split; [vm_compute; reflexivity|discriminate]).
  - intros st config.
    destruct (shouldCheckContentGeneration_targets st config) as [->| ->];
      vm_compute; reflexivity.
Qed.

Lemma getSubstitution_app_plain matched str pos (a t : string) :
  Text.has_char "$" a = false →
  JsString.getSubstitution matched str pos (a +:+ t)
  = a +:+ JsString.getSubstitution matched str pos t.
Proof.
  induction a as [|c a IH]; [reflexivity|].
  cbn [Text.has_char]. intros [Hc Ha]%orb_false_iff.
  rewrite !append_cons. cbn [JsString.getSubstitution].
  rewrite Ascii.eqb_sym, Hc. by rewrite IH.
Qed.

(** X9. The conversation is handed to [replace] as a replacement pattern:
    where it holds two dollar signs in a row, and no other, the prompt
    [wasContentGenerated] sends holds a single dollar sign in their place. *)
Theorem doubled_dollar_reaches_the_model_single :
  ∀ llm (state : State) (config : option RunnableConfig) (a b : string),
    _prepareConversation (Js.items (state !! "messages"%string))
      = Ok (a +:+ "$$" +:+ b) →
    Text.has_char "$" a = false →
    Text.has_char "$" b = false →
    calls (wasContentGenerated llm state config)
    = [Expected.contentCheckRequest (a +:+ "$" +:+ b)].
Proof.
  intros llm state config a b Hconv Ha Hb.
  unfold wasContentGenerated. rewrite Hconv. cbn [mbind result_bind].
  assert (JsString.replace wasContentGenerated_prompt "{conversation}"
            (a +:+ "$$" +:+ b)
          = Expected.contentCheckPrompt (a +:+ "$" +:+ b)) as ->.
  { unfold JsString.replace.
    change (JsString.indexOf "{conversation}" wasContentGenerated_prompt)
      with (Some 314).
    cbv beta iota. rewrite getSubstitution_app_plain by done.
    change ("$$" +:+ b) with (String "$" (String "$" b)).
    cbn [JsString.getSubstitution Ascii.eqb Bool.eqb].
    rewrite getSubstitution_plain by done.
    change (a +:+ "$" +:+ b) with (a +:+ String "$" b).
    generalize (a +:+ String "$" b). intros x.
    vm_compute. reflexivity. }
  unfold liftR, await, mbind, Comp_bind. cbn [calls outcome].
  by destruct (structuredContentGenerated llm _).
Qed.

Lemma doubled_dollar_reaches_the_model_single_witness :
  calls (wasContentGenerated Sample.llm
           {[ "messages"%string :=
                VArray [VMessage {| _getType := "human";
                                    content := ContentText "Price: $$5" |}] ]}
           None)
  = [Expected.contentCheckRequest
       (lines ["<human_message index={0}>"; "Price: $5"; "</human_message>"])].
Proof.
  apply (doubled_dollar_reaches_the_model_single Sample.llm _ None
           ("<human_message index={0}>" +:+ nl +:+ "Price: ")
           ("5" +:+ nl +:+ "</human_message>")); reflexivity.
Defined.

Section CallFacts.

Context (DEFAULT_SYSTEM_RULES : list string) (llm : Collaborators).
Context (config : option RunnableConfig).

Local Abbreviation g := (workflow DEFAULT_SYSTEM_RULES llm).

Lemma generateInsights_calls_once (state : State) :
  length (calls (generateInsights DEFAULT_SYSTEM_RULES llm state config)) ≤ 1.
Proof.
  unfold generateInsights, liftR, await, mbind, Comp_bind.
  cbn [calls outcome].
  destruct (generateInsights_prompt _ _ _) as [prompt|e];
    cbn [calls outcome app length]; [|lia].
  destruct (structuredUserRules llm _);
    cbn [calls length app mret Comp_ret]; lia.
Qed.

Lemma wasContentGenerated_calls_once (state : State) :
  length (calls (wasContentGenerated llm state config)) ≤ 1.
Proof.
  unfold wasContentGenerated, liftR, await, mbind, Comp_bind.
  cbn [calls outcome].
  destruct (result_bind _ _ _ _) as [prompt|e];
    cbn [calls outcome app length]; [|lia].
  destruct (structuredContentGenerated llm _);
    cbn [calls length app mret Comp_ret]; lia.
Qed.

(** A node execution records the calls of the node, whether or not its
    update is merged. *)
Lemma exec_node_called name r fn :
  nodes g !! name = Some fn →
  match Executor.exec_node g config name r with
  | inl (_, r') | inr r' =>
      called r' = called r ++ calls (fn (Executor.visible g config r) config)
  end.
Proof.
  intros Hfn. unfold Executor.exec_node. rewrite Hfn. cbv zeta.
  destruct (outcome _) as [upd|e]; [|reflexivity].
  by destruct (Engine.merge _ _ _ _ _) as [[st' store']|e].
Qed.

Lemma exec_node_calls_once name r fn :
  nodes g !! name = Some fn →
  (∀ st, length (calls (fn st config)) ≤ 1) →
  match Executor.exec_node g config name r with
  | inl (_, r') | inr r' => length (called r') ≤ length (called r) + 1
  end.
Proof.
  intros Hfn Hone. pose proof (exec_node_called name r fn Hfn) as Hcalled.
  specialize (Hone (Executor.visible g config r)).
  destruct (Executor.exec_node g config name r) as [[e r']|r'];
    rewrite Hcalled, length_app; lia.
Qed.

End CallFacts.

(** X10. When the chat model fails, [callModel] hands the failure on: a
    default run is aborted with that very error after the one call, with
    the state and the store as the caller gave them, and
    [wasContentGenerated] is not run. *)
Theorem chat_failure_aborts_the_run :
  ∀ D llm (fuel : nat) (st0 : State) (store0 : Store)
    (config : option RunnableConfig) (e : Error),
    config_flag onlyGetRules config = false →
    config_flag hasAcceptedText config = false →
    chat llm
      (Expected.chatRequest D
         (Executor.visible (workflow D llm) config
            (Executor.initial st0 store0)) config) = Err e →
    1 ≤ fuel →
    ∃ r,
      Executor.invoke fuel (buildGraph D llm) st0 store0 config = Aborted e r
      ∧ trace r = ["callModel"%string]
      ∧ called r
        = [Expected.chatRequest D
             (Executor.visible (workflow D llm) config
                (Executor.initial st0 store0)) config]
      ∧ state r = st0
      ∧ store r = store0.
Proof.
  intros D llm fuel st0 store0 config e Honly Haccepted Hchat Hfuel.
  rewrite invoke_starts, shouldGenerateInsights_flags, Honly, Haccepted.
  destruct fuel as [|fuel]; [lia|].
  rewrite drive_step.
  rewrite (exec_node_throws _ _ _ _ (callModel D llm) e);
    [|apply workflow_callModel|by rewrite callModel_run, Hchat].
  rewrite callModel_run. eexists. split; [reflexivity|]. repeat split.
Qed.

Lemma chat_failure_aborts_the_run_witness :
  ∃ r,
    Executor.invoke 2
      (buildGraph Sample.DEFAULT_SYSTEM_RULES
         {| chat := λ _, Err CollaboratorFailure;
            structuredUserRules := structuredUserRules Sample.llm;
            structuredContentGenerated :=
              structuredContentGenerated Sample.llm |})
      {[ "messages"%string := VArray [Sample.hello] ]} ∅
      (Sample.config_with None None)
    = Aborted CollaboratorFailure r
    ∧ trace r = ["callModel"%string]
    ∧ length (called r) = 1
    ∧ state r = {[ "messages"%string := VArray [Sample.hello] ]}
    ∧ store r = ∅.
Proof.
  destruct (chat_failure_aborts_the_run Sample.DEFAULT_SYSTEM_RULES
              {| chat := λ _, Err CollaboratorFailure;
                 structuredUserRules := structuredUserRules Sample.llm;
                 structuredContentGenerated :=
                   structuredContentGenerated Sample.llm |}
              2 {[ "messages"%string := VArray [Sample.hello] ]} ∅
              (Sample.config_with None None) CollaboratorFailure)
    as (r & Hrun & Htrace & Hcalled & Hstate & Hstore);
    [reflexivity | reflexivity | reflexivity | lia |].
  exists r. split; [exact Hrun|]. split; [exact Htrace|].
  split; [by rewrite Hcalled|]. split; [exact Hstate|exact Hstore].
Defined.

(** X11. No run makes more than two model calls, however it ends and
    whatever the models answer; a run with [onlyGetRules] set makes none. *)
Theorem runs_call_models_at_most_twice :
  ∀ D llm (fuel : nat) (st0 : State) (store0 : Store)
    (config : option RunnableConfig),
    length (called (run_of (Executor.invoke fuel (buildGraph D llm) st0 store0
                              config))) ≤ 2
    ∧ (config_flag onlyGetRules config = true →
       called (run_of (Executor.invoke fuel (buildGraph D llm) st0 store0
                         config)) = []).
Proof.
  intros D llm fuel st0 store0 config.
  rewrite invoke_starts, shouldGenerateInsights_flags.
  destruct (config_flag onlyGetRules config).
  { destruct fuel as [|fuel]; [split; [cbn; lia|reflexivity]|].
    rewrite drive_step, exec_getRules.
    rewrite next_direct by apply workflow_getRules.
    rewrite drive_END. split; [cbn; lia|reflexivity]. }
  split; [|discriminate].
  destruct (config_flag hasAcceptedText config).
  { destruct fuel as [|fuel]; [cbn; lia|].
    rewrite drive_step.
    destruct (exec_generateInsights D llm config (Executor.initial st0 store0))
      as (e & -> & _).
    cbn [run_of called Executor.initial app].
    pose proof (generateInsights_calls_once D llm config
                  (Executor.visible (workflow D llm) config
                     (Executor.initial st0 store0))). lia. }
  destruct fuel as [|fuel]; [cbn; lia|].
  rewrite drive_step.
  pose proof (exec_node_calls_once D llm config "callModel"
                (Executor.initial st0 store0) _
                (proj1 (workflow_callModel D llm))) as Hone.
  destruct (Executor.exec_node _ _ "callModel" _) as [[e r1]|r1].
  { cbn [run_of]. etrans; [apply Hone|]; [|cbn; lia].
    intros st. rewrite callModel_calls. cbn. lia. }
  assert (length (called r1) ≤ 1) as Hr1.
  { etrans; [apply Hone|]; [|cbn; lia].
    intros st. rewrite callModel_calls. cbn. lia. }
  clear Hone. rewrite next_callModel.
  destruct (shouldCheckContentGeneration_targets
              (Executor.visible (workflow D llm) config r1) config) as [->| ->].
  { rewrite drive_END. cbn [run_of]. lia. }
  destruct fuel as [|fuel]; [cbn [Executor.drive run_of]; lia|].
  rewrite drive_step.
  pose proof (exec_node_calls_once D llm config "wasContentGenerated" r1 _
                (proj1 (workflow_wasContentGenerated D llm))
                (wasContentGenerated_calls_once llm config)) as Htwo.
  destruct (Executor.exec_node _ _ "wasContentGenerated" _) as [[e r2]|r2].
  { cbn [run_of]. lia. }
  rewrite next_direct by apply workflow_wasContentGenerated.
  rewrite drive_END. cbn [run_of]. lia.
Qed.

Lemma runs_call_models_at_most_twice_witness :
  length (called (run_of (Executor.invoke 2
                            (buildGraph Sample.DEFAULT_SYSTEM_RULES Sample.llm)
                            {[ "messages"%string := VArray [Sample.hello] ]} ∅
                            (Sample.config_with None None)))) ≤ 2
  ∧ called (run_of (Executor.invoke 2
                      (buildGraph Sample.DEFAULT_SYSTEM_RULES Sample.llm)
                      {[ "messages"%string := VArray [Sample.hello] ]} ∅
                      (Sample.config_with None (Some true)))) = [].
Proof.
  split.
  - apply runs_call_models_at_most_twice.
  - apply runs_call_models_at_most_twice. reflexivity.
Defined.

(** ** The routers as programs *)

Section HeapFacts.

Import Heap.

Implicit Types (w : World) (l : nat).

Lemma preserved_refl w : preserved w w.
Proof. by split. Qed.

Lemma preserved_trans w1 w2 w3 :
  preserved w1 w2 → preserved w2 w3 → preserved w1 w3.
Proof.
  intros [He1 Ho1] [He2 Ho2]. split; [congruence|].
  intros l o Hl. by apply Ho2, Ho1.
Qed.

Lemma alloc_preserved o w : preserved w (alloc o w).2.
Proof.
  split; [reflexivity|]. intros l o' Hl. cbn [alloc snd objects].
  rewrite lookup_insert_ne; [exact Hl|].
  intros <-. apply (is_fresh (dom (objects w))).
  apply elem_of_dom. by exists o'.
Qed.

Lemma alloc_object o w : object_at (alloc o w).2 (alloc o w).1 = o.
Proof.
  unfold object_at. cbn [alloc fst snd objects].
  by rewrite lookup_insert_eq.
Qed.

Lemma object_at_preserved w w' l :
  preserved w w' → is_Some (objects w !! l) → object_at w' l = object_at w l.
Proof.
  intros [_ Ho] [o Hl]. unfold object_at. by rewrite (Ho _ _ Hl), Hl.
Qed.

(** The program after [callModel] only reads. *)
Lemma shouldCheckContentGeneration_program_run state w :
  shouldCheckContentGeneration_program state w
  = (if truthy (default (Prim VUndefined)
                  (object_at w state !! "contentGenerated"%string))
     then END else To "wasContentGenerated", w).
Proof.
  unfold shouldCheckContentGeneration_program, mbind, Prog_bind, getProp,
    mret, Prog_ret.
  cbn [fst snd]. by destruct (truthy _).
Qed.

Ltac unfold_program :=
  unfold shouldGenerateInsights_program, spread_source, optionalProp,
    orEmptyObject, mbind, Prog_bind, getProp, ownProps, mret, Prog_ret;
  cbn [fst snd].

Ltac settle_route :=
  cbn [fst snd]; rewrite ?alloc_object; unfold route_of;
  repeat match goal with
         | |- context [if truthy ?x then _ else _] => destruct (truthy x)
         end;
  cbn [fst snd];
  (split;
   [ reflexivity
   | first [ apply alloc_preserved
           | eapply preserved_trans; apply alloc_preserved ] ]).

(** The first program allocates at most two objects, changes nothing that
    was there, and returns the branch on the literal it built. *)
Lemma shouldGenerateInsights_program_run state c w :
  (shouldGenerateInsights_program state c w).1
    = route_of (spread_source w c
                  ∪ {[ "hasAcceptedText"%string := Prim (VBool false);
                       "onlyGetRules"%string := Prim (VBool false) ]})
  ∧ preserved w (shouldGenerateInsights_program state c w).2.
Proof.
  destruct c as [l|].
  - destruct (default (Prim VUndefined)
                (object_at w l !! "configurable"%string)) as [v|lc] eqn:Hc.
    + destruct (truthy (Prim v)) eqn:Hv;
        unfold_program; rewrite Hc, Hv; settle_route.
    + unfold_program. rewrite Hc. cbn [truthy]. settle_route.
  - unfold_program. cbn [truthy Js.truthy]. settle_route.
Qed.

(** What the spread copies is the same in a world that kept the objects of
    the configuration. *)
Lemma spread_source_preserved w w' c :
  preserved w w' → config_allocated w c →
  spread_source w' c = spread_source w c.
Proof.
  intros Hw. destruct c as [l|]; [|reflexivity].
  intros [Hl Hlc]. unfold spread_source.
  rewrite (object_at_preserved w w' l Hw Hl).
  destruct (object_at w l !! "configurable"%string) as [[v|lc]|] eqn:Hc;
    cbn [default from_option id]; try reflexivity.
  apply (object_at_preserved w w' lc Hw), Hlc. reflexivity.
Qed.

(** The branch on the literal is the route of the embedded router. *)
Lemma route_of_config w c (st : State) (config : option RunnableConfig) :
  holds_config w c config →
  route_of (spread_source w c
              ∪ {[ "hasAcceptedText"%string := Prim (VBool false);
                   "onlyGetRules"%string := Prim (VBool false) ]})
  = shouldGenerateInsights st config.
Proof.
  unfold holds_config, spread_source.
  destruct c as [l|], config as [[[o|]]|]; try done.
  - intros (lc & -> & Hlc). cbn [default from_option id].
    unfold object_at. rewrite Hlc. cbn [default from_option id].
    destruct o as [[sr|] [[|]|] [[|]|] [aid|]]; vm_compute; reflexivity.
  - cbn [configurable]. intros ->. reflexivity.
Qed.

End HeapFacts.

(** A program that writes is told apart: setting [contentGenerated] before
    routing changes an object that was there, and the route with it. *)
Example writing_program_is_not_preserved :
  ¬ Heap.preserved
      {| Heap.objects :=
           {[ 0 := {[ "contentGenerated"%string := Heap.Prim (VBool false) ]} ]};
         Heap.effects := [] |}
      ((_ ← Heap.setProp 0 "contentGenerated" (Heap.Prim (VBool true));
        Heap.shouldCheckContentGeneration_program 0)
         {| Heap.objects :=
              {[ 0 := {[ "contentGenerated"%string :=
                           Heap.Prim (VBool false) ]} ]};
            Heap.effects := [] |}).2.
Proof.
  intros [_ Hobjects].
  specialize (Hobjects 0 _ eq_refl).
  apply (f_equal (λ o : option Heap.Obj,
                    o ≫= λ props, props !! "contentGenerated"%string))
    in Hobjects.
  vm_compute in Hobjects. discriminate.
Qed.

(** C7. Both routers are pure and deterministic. Written as programs over
    mutable objects, where a write or a collaborator call can be expressed,
    [shouldCheckContentGeneration] returns with the world exactly as it
    found it and [shouldGenerateInsights] only adds the objects of its own
    literals: every object that was there, the state and the configuration
    among them, is unchanged and no call is made. Each program returns what
    the router the executor calls returns on the state and configuration
    the objects hold; and invoked a second time, on the world the first
    invocation left, each returns the same candidate. *)
Theorem routers_are_pure_and_repeatable :
  ∀ (w : Heap.World) (state : nat) (c : option nat),
    (Heap.shouldCheckContentGeneration_program state w).2 = w
    ∧ Heap.preserved w (Heap.shouldGenerateInsights_program state c w).2
    ∧ (∀ (st : State) (config : option RunnableConfig),
          Heap.holds_state w state st →
          (Heap.shouldCheckContentGeneration_program state w).1
          = shouldCheckContentGeneration st config)
    ∧ (∀ (st : State) (config : option RunnableConfig),
          Heap.holds_config w c config →
          (Heap.shouldGenerateInsights_program state c w).1
          = shouldGenerateInsights st config)
    ∧ (Heap.shouldCheckContentGeneration_program state
         (Heap.shouldCheckContentGeneration_program state w).2).1
      = (Heap.shouldCheckContentGeneration_program state w).1
    ∧ (Heap.config_allocated w c →
       (Heap.shouldGenerateInsights_program state c
          (Heap.shouldGenerateInsights_program state c w).2).1
       = (Heap.shouldGenerateInsights_program state c w).1).
Proof.
  intros w state c.
  destruct (shouldGenerateInsights_program_run state c w) as [Hroute Hkept].
  split; [by rewrite shouldCheckContentGeneration_program_run|].
  split; [exact Hkept|]. split; [|split; [|split]].
  - intros st config Hst. rewrite shouldCheckContentGeneration_program_run.
    cbn [fst]. unfold shouldCheckContentGeneration.
    rewrite (Hst "contentGenerated"%string).
    by destruct (st !! "contentGenerated"%string).
  - intros st config Hconfig. rewrite Hroute.
    by apply route_of_config.
  - by rewrite !shouldCheckContentGeneration_program_run.
  - intros Hallocated.
    destruct (shouldGenerateInsights_program_run state c
                (Heap.shouldGenerateInsights_program state c w).2)
      as [Hagain _].
    rewrite Hagain, Hroute.
    by rewrite (spread_source_preserved _ _ _ Hkept Hallocated).
Qed.

Lemma routers_are_pure_and_repeatable_witness :
  (Heap.shouldCheckContentGeneration_program 0 Sample.world).1
    = To "wasContentGenerated"
  ∧ (Heap.shouldGenerateInsights_program 0 (Some 1) Sample.world).1
    = To "generateInsights"
  ∧ (Heap.shouldGenerateInsights_program 0 (Some 1)
       (Heap.shouldGenerateInsights_program 0 (Some 1) Sample.world).2).1
    = To "generateInsights"
  ∧ (Heap.shouldGenerateInsights_program 0 (Some 1) Sample.world).2
    ≠ Sample.world.
Proof.
  destruct (routers_are_pure_and_repeatable Sample.world 0 (Some 1))
    as (_ & _ & Hcheck & Hfirst & _ & Hagain).
  split.
  { rewrite (Hcheck {[ "contentGenerated"%string := VBool false ]} None);
      [reflexivity|].
    intros k. unfold Heap.object_at, Sample.world. cbn [Heap.objects].
    rewrite lookup_insert_eq. cbn [default from_option id].
    destruct (decide (k = "contentGenerated"%string)) as [->|Hk];
      [reflexivity|].
    by rewrite !lookup_singleton_ne. }
  assert ((Heap.shouldGenerateInsights_program 0 (Some 1) Sample.world).1
          = To "generateInsights") as Hone.
  { rewrite (Hfirst ∅ (Sample.config_with (Some true) None)); [reflexivity|].
    exists 2. split; vm_compute; reflexivity. }
  split; [exact Hone|]. split.
  { rewrite Hagain; [exact Hone|].
    split; [vm_compute; eauto|].
    intros lc Hlc. vm_compute in Hlc. injection Hlc as <-.
    vm_compute. eauto. }
  intros Hsame.
  apply (f_equal (λ w : Heap.World, size (Heap.objects w))) in Hsame.
  vm_compute in Hsame. discriminate.
Defined.

(** ** The run that generates insights *)

Section InsightsRun.

Context (DEFAULT_SYSTEM_RULES : list string) (llm : Collaborators).
Context (config : option RunnableConfig).

Local Abbreviation g := (workflow DEFAULT_SYSTEM_RULES llm).

(** Over [Engine.merge] the executor with the merge left open is the
    executor. *)
Lemma drive_by_strict fuel (graph : StateGraph) t r :
  ExecutorBy.drive Engine.merge fuel graph config t r
  = Executor.drive fuel graph config t r.
Proof.
  revert t r. induction fuel as [|fuel IH]; intros [|name] r; try reflexivity.
  cbn [ExecutorBy.drive Executor.drive].
  change (ExecutorBy.exec_node Engine.merge graph config name r)
    with (Executor.exec_node graph config name r).
  destruct (Executor.exec_node graph config name r) as [[e r']|r'];
    [reflexivity|].
  destruct (Executor.next graph config name r') as [t'|e]; [apply IH|reflexivity].
Qed.

Lemma invoke_by_strict fuel compiled (st0 : State) (store0 : Store) :
  ExecutorBy.invoke Engine.merge fuel compiled st0 store0 config
  = Executor.invoke fuel compiled st0 store0 config.
Proof.
  destruct compiled as [graph|e]; [|reflexivity].
  unfold ExecutorBy.invoke, Executor.invoke, ExecutorBy.run, Executor.run.
  destruct (entry graph); [apply drive_by_strict|reflexivity].
Qed.





End InsightsRun.


